(** * SQLite2Excel: a shallow embedding of [sqlite_to_xlsx_converter.py]

    The program picks a SQLite file, derives the name of the workbook to
    write ([ConverterWindow.set_save_path]) and exports every table to a
    sheet of its own in a background thread ([Converter.run]).

    The embedding follows the Python text function by function.  Values
    that Python types dynamically are given a small sum type, exceptions
    are a result type, and the objects the thread mutates (the workbook and
    what the thread has signalled so far) are threaded through a state
    monad whose state survives a raised exception, as in Python.  The two
    libraries the program drives, [sqlite3] and [xlsxwriter], are not part
    of the repository: the calls the program makes to them are modelled
    after their documented behaviour as far as the text of the call decides
    it, and taken from the environment beyond that. *)

From Stdlib Require Import ZArith List Bool Arith Lia Sorted.
From Stdlib Require Import Ascii String DecimalString.
From Stdlib Require Import Floats.SpecFloat.
Import ListNotations.

Local Open Scope list_scope.
Local Open Scope string_scope.

(* ================================================================== *)
(** * Python values, exceptions and string primitives *)
(* ================================================================== *)

(** The exceptions the program can meet. *)
Inductive exn : Type :=
| IndexError
| AttributeError
| TypeError
| ZeroDivisionError
| Sqlite3Error (msg : string)     (* an exception of the sqlite3 module *)
| InvalidWorksheetName            (* xlsxwriter.exceptions *)
| DuplicateWorksheetName
| FileCreateError
| FileSizeError
| SystemExit.

Inductive result (A : Type) : Type :=
| Ok (a : A)
| Raise (e : exn).
Arguments Ok {A} a.
Arguments Raise {A} e.

(** The objects [set_save_path] tests with [isinstance]. *)
Inductive pyobj : Type :=
| PyNone
| PyStr (s : string)
| PyList (l : list string).

Definition isinstance_list (o : pyobj) : bool :=
  match o with
  | PyList _ => true
  | _ => false
  end.

(** [==] between the objects above; a [str] never equals [None] or a
    [list]. *)
Definition py_eqb (a b : pyobj) : bool :=
  match a, b with
  | PyNone, PyNone => true
  | PyStr s, PyStr t => String.eqb s t
  | PyList l, PyList m =>
      if list_eq_dec string_dec l m then true else false
  | _, _ => false
  end.

(** [o in l]. *)
Definition py_in (o : pyobj) (l : list pyobj) : bool :=
  existsb (py_eqb o) l.

(** [len(o)]. *)
Definition py_len (o : pyobj) : result nat :=
  match o with
  | PyNone => Raise TypeError
  | PyStr s => Ok (String.length s)
  | PyList l => Ok (List.length l)
  end.

(** [s.split(sep)] for a one-character separator: never empty. *)
Fixpoint split (sep : ascii) (s : string) : list string :=
  match s with
  | EmptyString => [EmptyString]
  | String c rest =>
      if Ascii.eqb c sep then EmptyString :: split sep rest
      else match split sep rest with
           | [] => [String c EmptyString]
           | w :: ws => String c w :: ws
           end
  end.

(** [s[:-idx]]; Python reads [s[:-0]] as [s[:0]], the empty string. *)
Definition slice_to_neg (s : string) (idx : nat) : string :=
  match idx with
  | O => EmptyString
  | _ => substring 0 (String.length s - idx) s
  end.

(** [s.startswith(p)]. *)
Definition startswith (p s : string) : bool := String.prefix p s.

(** [s.endswith(p)]. *)
Definition endswith (p s : string) : bool :=
  (String.length p <=? String.length s)%nat &&
  String.eqb (substring (String.length s - String.length p) (String.length p) s) p.

(** Lower case of the ASCII letters, every other byte kept: the folding
    SQLite applies when it compares names.  (Python's [str.lower] folds the
    letters of every script; it is not this function.) *)
Definition lower_ascii (c : ascii) : ascii :=
  let n := nat_of_ascii c in
  if ((65 <=? n) && (n <=? 90))%nat then ascii_of_nat (n + 32) else c.

Fixpoint lower (s : string) : string :=
  match s with
  | EmptyString => EmptyString
  | String c rest => String (lower_ascii c) (lower rest)
  end.

(* ================================================================== *)
(** * [ConverterWindow.set_save_path] *)
(* ================================================================== *)

Definition known_extensions : list pyobj :=
  [PyStr "db"; PyStr "sqlite"; PyStr "sqlite3"; PyStr "db3"].

(** The method reads [self.file_path] and assigns [self.save_path]; the
    model returns the assigned string. *)
Definition set_save_path (file_path : string) : result string :=
  (* get file extension *)
  let check_extension := PyStr (last (split "."%char file_path) EmptyString) in
  let extension :=
    if isinstance_list check_extension then check_extension else PyNone in
  if py_in extension known_extensions then
    match py_len extension with
    | Ok idx => Ok (slice_to_neg file_path idx ++ "xlsx")
    | Raise e => Raise e
    end
  else
    Ok (file_path ++ ".xlsx").

(** The rule as the specification words it: a known database extension is
    stripped and [.xlsx] appended; any other path gets [.xlsx] appended. *)
Definition strip_known_extension (path : string) : option string :=
  let try ext :=
    if endswith ext path
    then Some (substring 0 (String.length path - String.length ext) path)
    else None in
  match try ".db", try ".sqlite", try ".sqlite3", try ".db3" with
  | Some s, _, _, _ => Some s
  | _, Some s, _, _ => Some s
  | _, _, Some s, _ => Some s
  | _, _, _, Some s => Some s
  | _, _, _, _ => None
  end.

Definition destination_path_spec (path : string) : string :=
  match strip_known_extension path with
  | Some stem => stem ++ ".xlsx"
  | None => path ++ ".xlsx"
  end.

(** [str(n)] for a natural number. *)
Definition decimal (n : nat) : string :=
  DecimalString.NilEmpty.string_of_uint (Nat.to_uint n).

(** A text without a single quote. *)
Fixpoint no_quote (s : string) : bool :=
  match s with
  | EmptyString => true
  | String c rest => negb (Ascii.eqb c "'"%char) && no_quote rest
  end.

(* ================================================================== *)
(** * Numbers: Python's [float] as IEEE 754 binary64 *)
(* ================================================================== *)

Definition prec : Z := 53.
Definition emax : Z := 1024.

(** [float(n)] for an [int]; exact for every table count in reach. *)
Definition float_of_int (n : Z) : spec_float :=
  binary_normalize prec emax n 0 false.

(** [a / b] on two [int]s: true division, rounded to nearest.  Both operands
    are below [2^53] for any count of tables in reach and convert to [float]
    exactly; the quotient is then the division of the two doubles. *)
Definition truediv (a b : Z) : result spec_float :=
  if (b =? 0)%Z then Raise ZeroDivisionError
  else Ok (SFdiv prec emax (float_of_int a) (float_of_int b)).

(** [x * n] for a [float] and an [int]. *)
Definition float_mul_int (x : spec_float) (n : Z) : spec_float :=
  SFmul prec emax x (float_of_int n).

(** Modelled from the spec: the conversion a signal declared
    [pyqtSignal(int)] applies to a [float] argument is PyQt's and not in the
    repository; the specification calls it integer truncation. *)
Definition int_of_float (x : spec_float) : option Z :=
  match x with
  | S754_zero _ => Some 0%Z
  | S754_finite s m e =>
      let a := match e with
               | Z0 => Zpos m
               | Zpos _ => Z.shiftl (Zpos m) e
               | Zneg p => Z.shiftr (Zpos m) (Zpos p)
               end in
      Some (if s then (- a)%Z else a)
  | _ => None
  end.

(** The expression [i / len(cleaned_names) * 100] of [run]. *)
Definition progress_arg (i total : nat) : result spec_float :=
  match truediv (Z.of_nat i) (Z.of_nat total) with
  | Ok q => Ok (float_mul_int q 100)
  | Raise e => Raise e
  end.



(* ================================================================== *)
(** * The source database, as [sqlite3] shows it *)
(* ================================================================== *)

(** The scalars a SQLite cell holds. *)
Inductive value : Type :=
| VNull
| VInt (n : Z)
| VReal (x : spec_float)
| VText (s : string)
| VBlob (b : list ascii).

(** One entry of [sqlite_master] together with what a full scan of it
    returns. *)
Record DbObject : Type := {
  obj_type : string;               (* 'table', 'index', 'view', 'trigger' *)
  obj_name : string;
  obj_columns : list string;
  obj_rows : list (list value)
}.

(** An open database: the entries of its catalog, in catalog order. *)
Definition Connection : Type := list DbObject.

(** What a cursor holds after [execute]: [fetchall()] and the names in
    [description] (the program reads only field 0 of each entry). *)
Record Cursor : Type := {
  fetchall : list (list value);
  description : list string
}.

(* ================================================================== *)
(** * The destination workbook, as [xlsxwriter] keeps it *)
(* ================================================================== *)

(** A sheet is its name and the [write(row, col, value)] calls made on it,
    oldest first. *)
Record Worksheet : Type := {
  ws_name : string;
  ws_cells : list (nat * nat * value)
}.

Record Workbook : Type := {
  wb_filename : string;
  wb_sheets : list Worksheet;
  wb_sheetname_count : nat;
  wb_closed : bool
}.

(** [xlsxwriter.Workbook(filename)]: no file is touched before [close]. *)
Definition Workbook_new (filename : string) : Workbook :=
  {| wb_filename := filename; wb_sheets := [];
     wb_sheetname_count := 0; wb_closed := false |}.

(** What can stop [close] once the destination file exists: a value the
    sheets hold that cannot be written out (a BLOB kept as text:
    [TypeError]) or a file beyond the size of a plain archive
    ([FileSizeError]). *)
Inductive pack_failure : Type :=
| UnsupportedValue
| ArchiveTooLarge.

Definition pack_exn (f : pack_failure) : exn :=
  match f with
  | UnsupportedValue => TypeError
  | ArchiveTooLarge => FileSizeError
  end.

(* ================================================================== *)
(** * What the thread does: state, trace and the monad *)
(* ================================================================== *)

(** What the thread has done that another component can see. *)
Inductive event : Type :=
| EvPrint (s : string)              (* print(e) *)
| EvExecute (sql : string)          (* cur.execute(sql): Source Reader *)
| EvAddWorksheet (name : string)    (* workbook.add_worksheet: Sheet Writer *)
| EvUpdateProg (x : spec_float)     (* ui.update_prog.emit(x) *)
| EvStopped (b : bool)              (* self.stopped() returned b *)
| EvWait                            (* ui.wait.emit() *)
| EvClose                           (* workbook.close() returned *)
| EvDone.                           (* ui.done.emit() *)

Record World : Type := {
  book : Workbook;
  trace : list event
}.

(** A computation returns or raises, and leaves a world either way. *)
Definition M (A : Type) : Type := World -> result A * World.

Definition ret {A} (a : A) : M A := fun w => (Ok a, w).

Definition bind {A B} (c : M A) (k : A -> M B) : M B :=
  fun w => match c w with
           | (Ok a, w') => k a w'
           | (Raise e, w') => (Raise e, w')
           end.

Definition raise {A} (e : exn) : M A := fun w => (Raise e, w).

Definition lift {A} (r : result A) : M A := fun w => (r, w).

Definition emit (e : event) : M unit :=
  fun w => (Ok tt, {| book := book w; trace := (trace w ++ [e])%list |}).

Definition set_book (b : Workbook) : M unit :=
  fun w => (Ok tt, {| book := b; trace := trace w |}).

Definition get_book : M Workbook := fun w => (Ok (book w), w).

Notation "x <- c ;; k" := (bind c (fun x => k))
  (at level 61, c at next level, right associativity).
Notation "c ;; k" := (bind c (fun _ => k))
  (at level 61, right associativity).

(** [seq[i]] for a list or a tuple and [i >= 0]. *)
Definition getitem {A} (l : list A) (i : nat) : result A :=
  match nth_error l i with
  | Some a => Ok a
  | None => Raise IndexError
  end.

(* ================================================================== *)
(** * The thread and what it meets *)
(* ================================================================== *)

(** What the thread meets outside itself: the database driver, the value
    [self.stopped()] returns at the end of iteration [i] (the window sets
    the flag from another thread and nothing clears it), whether the
    destination can be created when the workbook is closed, and whether
    the sheets can then be written out. *)
Record Env : Type := {
  sqlite3_connect : string -> result Connection;
  stopped_at : nat -> bool;
  can_create : string -> bool;
  pack : list Worksheet -> option pack_failure
}.

Record Converter : Type := {
  db_file : string;
  save_path : string
}.

(* ================================================================== *)
(** * Sample inputs *)
(* ================================================================== *)

(** The database of the specification's scenario. *)
Definition users : DbObject :=
  {| obj_type := "table"; obj_name := "users";
     obj_columns := ["id"; "name"];
     obj_rows := [[VInt 1; VText "Ann"]; [VInt 2; VText "Bo"]] |}.

Definition logs : DbObject :=
  {| obj_type := "table"; obj_name := "logs";
     obj_columns := ["id"; "msg"];
     obj_rows := [[VInt 1; VText "ok"]] |}.

Definition sample_db : Connection := [users; logs].

Definition sample_env (conn : Connection) (flag : nat -> bool) : Env :=
  {| sqlite3_connect := fun _ => Ok conn;
     stopped_at := flag;
     can_create := fun _ => true;
     pack := fun _ => None |}.

Definition sample_job : Converter :=
  {| db_file := "data.db"; save_path := "data.db.xlsx" |}.

Definition quoted_db : Connection :=
  [{| obj_type := "table"; obj_name := "it's";
      obj_columns := ["id"]; obj_rows := [[VInt 1]] |}].

(** A table whose name holds a doubled quote, beside a view whose name is
    what the doubled quote stands for in a quoted token. *)
Definition doubled_quote_db : Connection :=
  [{| obj_type := "table"; obj_name := "a''b";
      obj_columns := ["x"]; obj_rows := [[VInt 1]] |};
   {| obj_type := "view"; obj_name := "a'b";
      obj_columns := ["y"]; obj_rows := [[VInt 2]] |}].

Definition failing_driver : Env :=
  {| sqlite3_connect := fun _ => Raise (Sqlite3Error "unable to open database file");
     stopped_at := fun _ => false;
     can_create := fun _ => true;
     pack := fun _ => None |}.

Definition long_name : string := "measurements_of_the_northern_station".



Definition never_stopped : nat -> bool := fun _ => false.
Definition always_stopped : nat -> bool := fun _ => true.

Definition empty_world : World :=
  {| book := Workbook_new "data.db.xlsx"; trace := [] |}.

(** A database with nothing to export. *)
Definition engine_only_db : Connection :=
  [{| obj_type := "view"; obj_name := "recent";
      obj_columns := ["id"]; obj_rows := [] |};
   {| obj_type := "table"; obj_name := "sqlite_sequence";
      obj_columns := ["name"; "seq"]; obj_rows := [] |}].


Definition unwritable_env (conn : Connection) : Env :=
  {| sqlite3_connect := fun _ => Ok conn;
     stopped_at := never_stopped;
     can_create := fun _ => false;
     pack := fun _ => None |}.

(* ================================================================== *)
(** * [ConverterWindow]: the dialog, the log and the progress bar *)
(* ================================================================== *)

Module ConverterWindow.

(** What the window shows: the value of [self.prog] and the lines of
    [self.logs]. *)
Record Window : Type := {
  win_prog : Z;
  win_logs : list string
}.

Definition newline : string := String (ascii_of_nat 10) EmptyString.

(** [init_UI]: the bar at 0 and one entry naming the two paths. *)
Definition selection_message (file_path save_path : string) : string :=
  "Selected file is '" ++ file_path ++ "'" ++ newline
  ++ "Excel file is saved to '" ++ save_path ++ "'".

Definition init_UI (file_path save_path : string) (w : Window) : Window :=
  {| win_prog := 0%Z;
     win_logs := (win_logs w ++ [selection_message file_path save_path])%list |}.

(** The slots [done], [wait] and [update_prog]. *)
Definition done (w : Window) : Window :=
  {| win_prog := 100%Z; win_logs := (win_logs w ++ ["Done!"])%list |}.

Definition wait (w : Window) : Window :=
  {| win_prog := win_prog w;
     win_logs := (win_logs w ++ ["Saving excel file, please wait..."])%list |}.

Definition update_prog (x : Z) (w : Window) : Window :=
  {| win_prog := x; win_logs := win_logs w |}.

(** The connections made in [__init__]: each signal of the thread runs its
    slot; [update_prog] receives the argument as the [int] the signal is
    declared with.  The other events of the thread do not reach the
    window. *)
Definition deliver (w : Window) (e : event) : Window :=
  match e with
  | EvUpdateProg x =>
      match int_of_float x with
      | Some v => update_prog v w
      | None => w
      end
  | EvWait => wait w
  | EvDone => done w
  | _ => w
  end.

(** The window once the signals of a trace have been delivered in order. *)
Definition shown (tr : list event) (w : Window) : Window :=
  fold_left deliver tr w.

(** [show_error]: the message box; the process exits when its [Close]
    button was the one clicked. *)
Definition show_error (close_clicked : bool) : result unit :=
  if close_clicked then Raise SystemExit else Ok tt.

(** [set_file_path]: [chosen] is what the file dialog returned, empty when
    it was dismissed; the method assigns [self.file_path] only for a
    non-empty answer.  Returns the attribute after the call. *)
Definition set_file_path (chosen : string) (close_clicked : bool)
    (file_path : option string) : result (option string) :=
  if negb (String.eqb chosen EmptyString) then Ok (Some chosen)
  else
    match show_error close_clicked with
    | Ok _ => Ok file_path
    | Raise e => Raise e
    end.

(** [set_save_path] on the attribute: [None.split] is an [AttributeError]. *)
Definition save_path_of (file_path : option string) : result string :=
  match file_path with
  | Some p => set_save_path p
  | None => Raise AttributeError
  end.

(** [init]: the four steps of the constructor; the last one creates the
    [Converter] that is started. *)
Definition init (chosen : string) (close_clicked : bool) (w : Window)
    : result (Window * Converter) :=
  match set_file_path chosen close_clicked None with
  | Raise e => Raise e
  | Ok file_path =>
      match save_path_of file_path with
      | Raise e => Raise e
      | Ok save_path =>
          match file_path with
          | Some p =>
              Ok (init_UI p save_path w,
                  {| db_file := p; save_path := save_path |})
          | None => Raise AttributeError
          end
      end
  end.

End ConverterWindow.

Definition start_window : ConverterWindow.Window :=
  {| ConverterWindow.win_prog := 0%Z; ConverterWindow.win_logs := [] |}.

(* ================================================================== *)
(** * What the model takes from the two libraries as given *)
(* ================================================================== *)

(** Two things the program relies on are neither in the repository nor
    written out here: Python's [str.lower], which folds the letters of every
    script, and what SQLite answers to a statement other than a full scan of
    one named object (a join, a comment, a scan of one of its own tables):
    the rows and column names of the result, or the message of the exception
    the [sqlite3] module raises.  Every definition and theorem of the section
    below holds whatever these two are. *)
Class Libraries : Type := {
  str_lower : string -> string;
  sqlite_other : Connection -> string -> Cursor + string
}.

Section Converter.

Context {libs : Libraries}.

(* ================================================================== *)
(** * The statements [sqlite3] is given *)
(* ================================================================== *)

(** The rows of
    [SELECT name FROM sqlite_master WHERE type='table';]: one 1-tuple per
    table, in catalog order. *)
Definition execute_table_names (conn : Connection) : list (list string) :=
  map (fun o => [obj_name o])
      (filter (fun o => String.eqb (obj_type o) "table") conn).

(** SQLite's tokenizer on a quoted token, entered after the opening quote:
    the token runs to the next quote that is not doubled, and a doubled
    quote stands for one quote.  Returns the decoded text and what follows
    the closing quote; [None] when the token is not closed. *)
Fixpoint lex_quoted (s : string) : option (string * string) :=
  match s with
  | EmptyString => None
  | String c rest =>
      if Ascii.eqb c "'"%char then
        match rest with
        | String c2 rest2 =>
            if Ascii.eqb c2 "'"%char then
              match lex_quoted rest2 with
              | Some (body, r) => Some (String "'"%char body, r)
              | None => None
              end
            else Some (EmptyString, rest)
        | EmptyString => Some (EmptyString, EmptyString)
        end
      else
        match lex_quoted rest with
        | Some (body, r) => Some (String c body, r)
        | None => None
        end
  end.

(** The error of a statement the parser rejects. *)
Definition syntax_error : exn := Sqlite3Error "syntax error".

(** Letters, digits, the underscore and the space: the characters of
    plain words. *)
Definition plain_char (c : ascii) : bool :=
  let n := nat_of_ascii c in
  ((48 <=? n) && (n <=? 57) || (65 <=? n) && (n <=? 90)
   || (97 <=? n) && (n <=? 122) || (n =? 95) || (n =? 32))%nat.

Fixpoint plain (s : string) : bool :=
  match s with
  | EmptyString => true
  | String c rest => plain_char c && plain rest
  end.

(** Whether the text after a closed token runs over plain words to a quote
    that opens a token never closed: the tokenizer then meets an illegal
    token before the statement can end. *)
Fixpoint opens_unclosed (rest : string) : bool :=
  match rest with
  | EmptyString => false
  | String c rest' =>
      if Ascii.eqb c "'"%char then no_quote rest'
      else plain_char c && opens_unclosed rest'
  end.

(** How far the text of a statement decides its fate: [Ok (Some name)] for
    a full scan [SELECT * FROM '<token>'] and nothing else, [name] being the
    decoded token; a syntax error when the token is never closed, or when
    plain words after it lead to a quote that is never closed; [Ok None] for
    every other text, which is left to the engine. *)
Definition parse_select_all (sql : string) : result (option string) :=
  if String.prefix "SELECT * FROM '" sql then
    match lex_quoted (substring 15 (String.length sql - 15) sql) with
    | None => Raise syntax_error
    | Some (name, EmptyString) => Ok (Some name)
    | Some (_, rest) =>
        if opens_unclosed rest then Raise syntax_error else Ok None
    end
  else Ok None.

(** SQLite compares names without regard to the case of ASCII letters. *)
Definition same_name (a b : string) : bool :=
  String.eqb (lower a) (lower b).

(** The entries a statement can read from: tables and views. *)
Definition is_relation (o : DbObject) : bool :=
  String.eqb (obj_type o) "table" || String.eqb (obj_type o) "view".

(** The table or view of the catalog a name stands for. *)
Definition find_object (conn : Connection) (name : string) : option DbObject :=
  find (fun o => is_relation o && same_name (obj_name o) name) conn.

(** The engine's answer to a statement the model does not decide. *)
Definition engine_answer (conn : Connection) (sql : string) : result Cursor :=
  match sqlite_other conn sql with
  | inl cur => Ok cur
  | inr msg => Raise (Sqlite3Error msg)
  end.

(** [cur.execute(sql)]: a full scan of a table or view of the catalog
    returns its rows and column names; a name the catalog does not hold
    (it can still be one of the engine's own tables) and every other
    statement are the engine's to answer. *)
Definition execute (conn : Connection) (sql : string) : result Cursor :=
  match parse_select_all sql with
  | Ok (Some name) =>
      match find_object conn name with
      | Some o => Ok {| fetchall := obj_rows o; description := obj_columns o |}
      | None => engine_answer conn sql
      end
  | Ok None => engine_answer conn sql
  | Raise e => Raise e
  end.

(* ================================================================== *)
(** * The calls [xlsxwriter] is given *)
(* ================================================================== *)

(** [len(s)] for a [str] held as its UTF-8 bytes: the number of characters,
    that is of bytes that do not continue a character ([10xxxxxx]). *)
Definition is_continuation (c : ascii) : bool :=
  let n := nat_of_ascii c in ((128 <=? n) && (n <? 192))%nat.

Fixpoint str_len (s : string) : nat :=
  match s with
  | EmptyString => 0
  | String c rest =>
      if is_continuation c then str_len rest else S (str_len rest)
  end.

Definition invalid_sheet_chars : list ascii :=
  ["["; "]"; ":"; "*"; "?"; "/"; "\"]%char.

Fixpoint has_invalid_char (s : string) : bool :=
  match s with
  | EmptyString => false
  | String c rest =>
      existsb (Ascii.eqb c) invalid_sheet_chars || has_invalid_char rest
  end.

(** The name check of [add_worksheet]: an empty name gets the default
    [SheetN]; a name of more than 31 characters, with one of the characters
    [[]:*?/\], starting or ending with an apostrophe, or equal to the name of
    an existing sheet once both are put in lower case is refused.  [count]
    is the sheet counter already incremented for this call. *)
Definition check_sheetname (existing : list Worksheet) (count : nat)
    (sheetname : string) : result string :=
  let sheetname :=
    if String.eqb sheetname EmptyString then "Sheet" ++ decimal count else sheetname in
  if (31 <? str_len sheetname)%nat then Raise InvalidWorksheetName
  else if has_invalid_char sheetname then Raise InvalidWorksheetName
  else if startswith "'" sheetname || endswith "'" sheetname
       then Raise InvalidWorksheetName
  else if existsb (fun ws => String.eqb (str_lower sheetname)
                                        (str_lower (ws_name ws)))
                  existing
       then Raise DuplicateWorksheetName
  else Ok sheetname.

(** [workbook.add_worksheet(name)]; the sheet is handed back as its
    position in the workbook. *)
Definition add_worksheet (name : string) : M nat :=
  emit (EvAddWorksheet name) ;;
  wb <- get_book ;;
  let count := S (wb_sheetname_count wb) in
  let wb1 := {| wb_filename := wb_filename wb; wb_sheets := wb_sheets wb;
                wb_sheetname_count := count; wb_closed := wb_closed wb |} in
  set_book wb1 ;;
  sheetname <- lift (check_sheetname (wb_sheets wb) count name) ;;
  set_book {| wb_filename := wb_filename wb;
              wb_sheets := (wb_sheets wb
                            ++ [{| ws_name := sheetname; ws_cells := [] |}])%list;
              wb_sheetname_count := count; wb_closed := wb_closed wb |} ;;
  ret (List.length (wb_sheets wb)).

Definition append_cells (cs : list (nat * nat * value)) (ws : Worksheet)
    : Worksheet :=
  {| ws_name := ws_name ws; ws_cells := (ws_cells ws ++ cs)%list |}.

Definition record_write (r c : nat) (v : value) : Worksheet -> Worksheet :=
  append_cells [(r, c, v)].

Definition set_sheets (wb : Workbook) (l : list Worksheet) : Workbook :=
  {| wb_filename := wb_filename wb; wb_sheets := l;
     wb_sheetname_count := wb_sheetname_count wb; wb_closed := wb_closed wb |}.

Fixpoint update_sheet (h : nat) (f : Worksheet -> Worksheet)
    (l : list Worksheet) : list Worksheet :=
  match l, h with
  | [], _ => []
  | ws :: rest, O => f ws :: rest
  | ws :: rest, S h' => ws :: update_sheet h' f rest
  end.

(** [worksheet.write(row, col, value)] on the sheet at position [h], as a
    call: the sheet records that it was made.  What the sheet shows for the
    value is the library's matter and not followed here (nothing for [None]
    and for empty text, a formula for text that starts with [=]); the values
    the library takes as they are, are those of [writable] below. *)
Definition worksheet_write (h r c : nat) (v : value) : M unit :=
  wb <- get_book ;;
  set_book (set_sheets wb (update_sheet h (record_write r c v) (wb_sheets wb))).

(** The values every [write] accepts: NULL, integers, finite reals and
    text.  An infinite real makes [write] raise, and a BLOB is kept in a
    form that [close] cannot write out. *)
Definition writable (v : value) : bool :=
  match v with
  | VNull | VInt _ | VText _ => true
  | VReal (S754_zero _) | VReal (S754_finite _ _ _) => true
  | VReal _ => false
  | VBlob _ => false
  end.

(** The sheet [close] adds to a workbook that has none: the call
    [add_worksheet()] it makes gives it the default name. *)
Definition default_sheet (count : nat) : Worksheet :=
  {| ws_name := "Sheet" ++ decimal count; ws_cells := [] |}.

Definition with_default_sheet (wb : Workbook) : Workbook :=
  match wb_sheets wb with
  | [] =>
      {| wb_filename := wb_filename wb;
         wb_sheets := [default_sheet (S (wb_sheetname_count wb))];
         wb_sheetname_count := S (wb_sheetname_count wb);
         wb_closed := wb_closed wb |}
  | _ :: _ => wb
  end.

Definition close_book (wb : Workbook) : Workbook :=
  {| wb_filename := wb_filename wb; wb_sheets := wb_sheets wb;
     wb_sheetname_count := wb_sheetname_count wb; wb_closed := true |}.

(** [workbook.close()]: the file is created, or [FileCreateError]; a
    workbook without a sheet is given the default one; the sheets are
    written out, or the failure of that is raised. *)
Definition workbook_close (env : Env) : M unit :=
  wb <- get_book ;;
  if can_create env (wb_filename wb) then
    let wb1 := with_default_sheet wb in
    set_book wb1 ;;
    match pack env (wb_sheets wb1) with
    | None =>
        set_book (close_book wb1) ;;
        emit EvClose
    | Some f => raise (pack_exn f)
    end
  else raise FileCreateError.

(* ================================================================== *)
(** * [Converter] *)
(* ================================================================== *)

(** [Converter.create_connection]: [Some conn], or [None] once the error
    has been printed. *)
Definition create_connection (env : Env) (db_file : string)
    : M (option Connection) :=
  match sqlite3_connect env db_file with
  | Ok conn => ret (Some conn)
  | Raise (Sqlite3Error e) => emit (EvPrint e) ;; ret None
  | Raise e => raise e
  end.

(** ["SELECT * FROM '{}'".format(table)]. *)
Definition select_query (table : string) : string :=
  "SELECT * FROM '" ++ table ++ "'".
Arguments select_query : simpl never.

(** [Converter.select_table]: the column names, then the rows. *)
Definition select_table (conn : Connection) (table : string)
    : M (list (list value)) :=
  emit (EvExecute (select_query table)) ;;
  cur <- lift (execute conn (select_query table)) ;;
  let rows := fetchall cur in
  let col_names := map VText (description cur) in
  ret (col_names :: rows).

(** The inner loop of [write_table_to_workbook]: one row, column by
    column. *)
Fixpoint write_row (worksheet row_number : nat) (row : list value)
    (cols : list nat) : M unit :=
  match cols with
  | [] => ret tt
  | col_number :: cols' =>
      v <- lift (getitem row col_number) ;;
      worksheet_write worksheet row_number col_number v ;;
      write_row worksheet row_number row cols'
  end.

(** The outer loop, [enumerate(rows)] from [row_number]. *)
Fixpoint write_rows (worksheet : nat) (cols : list nat) (row_number : nat)
    (rows : list (list value)) : M unit :=
  match rows with
  | [] => ret tt
  | row :: rest =>
      write_row worksheet row_number row cols ;;
      write_rows worksheet cols (S row_number) rest
  end.

(** [Converter.write_table_to_workbook]; the workbook it is given and
    returns is the one of the world. *)
Definition write_table_to_workbook (table : list (list value))
    (worksheet_name : string) : M unit :=
  worksheet <- add_worksheet worksheet_name ;;
  let rows := table in
  header <- lift (getitem table 0) ;;
  let cols := seq 0 (List.length header) in
  (* Iterate over the data and write it out row by row. *)
  write_rows worksheet cols 0 rows.

(** [self.stopped()] at the end of iteration [i]. *)
Definition stopped (env : Env) (i : nat) : M bool :=
  emit (EvStopped (stopped_at env i)) ;;
  ret (stopped_at env i).

(** The loop of [run] over [enumerate(cleaned_names)], entered at index
    [i] with [names] left; [total] is [len(cleaned_names)]. *)
Fixpoint export_tables (env : Env) (conn : Connection) (total i : nat)
    (names : list string) : M unit :=
  match names with
  | [] => ret tt
  | name :: rest =>
      table <- select_table conn name ;;
      write_table_to_workbook table name ;;
      (* update ui progress bar *)
      x <- lift (progress_arg i total) ;;
      emit (EvUpdateProg x) ;;
      b <- stopped env i ;;
      if b then raise SystemExit
      else export_tables env conn total (S i) rest
  end.

(** The names [run] keeps: [not item.startswith("sqlite")]. *)
Definition clean_names (names : list string) : list string :=
  filter (fun item => negb (startswith "sqlite" item)) names.

Definition run_body (env : Env) (self : Converter) : M unit :=
  (* Create a workbook *)
  set_book (Workbook_new (save_path self)) ;;
  conn <- create_connection env (db_file self) ;;
  (* get all table names *)
  match conn with
  | None => raise AttributeError          (* None.cursor() *)
  | Some conn =>
      let data := execute_table_names conn in
      let names := List.concat data in
      (* remove unwanted tables *)
      let cleaned_names := clean_names names in
      export_tables env conn (List.length cleaned_names) 0 cleaned_names ;;
      (* save and close *)
      emit EvWait ;;
      workbook_close env ;;
      emit EvDone
  end.

(** [Converter.run], from the start of the thread. *)
Definition run (env : Env) (self : Converter) : result unit * World :=
  run_body env self {| book := Workbook_new (save_path self); trace := [] |}.

(* ================================================================== *)
(** * Reading what was written *)
(* ================================================================== *)

(** One row as [write] calls, from column [k] on. *)
Fixpoint cells_from (r k : nat) (row : list value) : list (nat * nat * value) :=
  match row with
  | [] => []
  | v :: rest => (r, k, v) :: cells_from r (S k) rest
  end.

(** Rows laid out in row-major order, the first one on row [r]. *)
Fixpoint row_major (r : nat) (rows : list (list value))
    : list (nat * nat * value) :=
  match rows with
  | [] => []
  | row :: rest => (cells_from r 0 row ++ row_major (S r) rest)%list
  end.

(** What the two loops of [write_table_to_workbook] get written for a column
    count [width]: rows cut to [width] as long as they are wide enough, and
    of the first row that is not, the cells it has. *)
Fixpoint written (width r : nat) (rows : list (list value))
    : list (nat * nat * value) :=
  match rows with
  | [] => []
  | row :: rest =>
      if (width <=? List.length row)%nat
      then (cells_from r 0 (firstn width row) ++ written width (S r) rest)%list
      else cells_from r 0 row
  end.

Definition all_wide (width : nat) (rows : list (list value)) : bool :=
  forallb (fun row => (width <=? List.length row)%nat) rows.

(** The world once the sheet at position [h] has received the calls [cs]. *)
Definition add_cells (h : nat) (cs : list (nat * nat * value)) (w : World)
    : World :=
  {| book := set_sheets (book w)
               (update_sheet h (append_cells cs) (wb_sheets (book w)));
     trace := trace w |}.

(** The world once [add_worksheet name] has been entered, and once it has
    created the sheet [given]. *)
Definition entered (name : string) (w : World) : World :=
  {| book := {| wb_filename := wb_filename (book w);
                wb_sheets := wb_sheets (book w);
                wb_sheetname_count := S (wb_sheetname_count (book w));
                wb_closed := wb_closed (book w) |};
     trace := (trace w ++ [EvAddWorksheet name])%list |}.

Definition created (name given : string) (w : World) : World :=
  {| book := {| wb_filename := wb_filename (book w);
                wb_sheets := (wb_sheets (book w)
                              ++ [{| ws_name := given; ws_cells := [] |}])%list;
                wb_sheetname_count := S (wb_sheetname_count (book w));
                wb_closed := wb_closed (book w) |};
     trace := (trace w ++ [EvAddWorksheet name])%list |}.

(* ================================================================== *)
(** * Reading a trace *)
(* ================================================================== *)

(** The arguments of the progress notifications, in order of emission. *)
Fixpoint progress_events (evs : list event) : list spec_float :=
  match evs with
  | [] => []
  | EvUpdateProg x :: rest => x :: progress_events rest
  | _ :: rest => progress_events rest
  end.

(** The values [self.stopped()] returned, in order. *)
Fixpoint polls (evs : list event) : list bool :=
  match evs with
  | [] => []
  | EvStopped b :: rest => b :: polls rest
  | _ :: rest => polls rest
  end.

(** What follows the first read of the flag that returned [True]. *)
Fixpoint after_stop (evs : list event) : list event :=
  match evs with
  | [] => []
  | EvStopped true :: rest => rest
  | _ :: rest => after_stop rest
  end.

(** The events of a whole iteration of the loop of [run]. *)
Definition iteration (env : Env) (i : nat) (name : string) (x : spec_float)
    : list event :=
  [EvExecute (select_query name); EvAddWorksheet name; EvUpdateProg x;
   EvStopped (stopped_at env i)].

(** The shapes the loop of [run] can take from index [i] with [names]
    left: its outcome, its events and the names whose iteration was
    completed. *)
Inductive loop_run (env : Env) (total : nat)
    : nat -> list string -> result unit -> list event -> list string -> Prop :=
| loop_end i :
    loop_run env total i [] (Ok tt) [] []
| loop_next i name rest x r evs done :
    progress_arg i total = Ok x ->
    stopped_at env i = false ->
    loop_run env total (S i) rest r evs done ->
    loop_run env total i (name :: rest) r
      (iteration env i name x ++ evs)%list (name :: done)
| loop_exit i name rest x :
    progress_arg i total = Ok x ->
    stopped_at env i = true ->
    loop_run env total i (name :: rest) (Raise SystemExit)
      (iteration env i name x) [name]
| loop_select_failed i name rest e :
    e <> SystemExit ->
    loop_run env total i (name :: rest) (Raise e)
      [EvExecute (select_query name)] []
| loop_write_failed i name rest e :
    e <> SystemExit ->
    loop_run env total i (name :: rest) (Raise e)
      [EvExecute (select_query name); EvAddWorksheet name] [].

(** The events the loop can emit. *)
Definition loop_event (e : event) : Prop :=
  match e with
  | EvExecute _ | EvAddWorksheet _ | EvUpdateProg _ | EvStopped _ => True
  | _ => False
  end.

(** The sheet made for a table: it bears the table's name, unless that is
    empty. *)
Definition sheet_for (name : string) (ws : Worksheet) : Prop :=
  name = EmptyString \/ ws_name ws = name.

(** The tables [run] exports from a connection. *)
Definition exported_names (conn : Connection) : list string :=
  clean_names (List.concat (execute_table_names conn)).


(* ================================================================== *)
(** * More readings of a trace *)
(* ================================================================== *)

(** The names handed to [add_worksheet], in order. *)
Fixpoint added_sheets (evs : list event) : list string :=
  match evs with
  | [] => []
  | EvAddWorksheet name :: rest => name :: added_sheets rest
  | _ :: rest => added_sheets rest
  end.

(** The statements executed, in order. *)
Fixpoint executed (evs : list event) : list string :=
  match evs with
  | [] => []
  | EvExecute sql :: rest => sql :: executed rest
  | _ :: rest => executed rest
  end.


(** The exceptions the loop of [run] can end with: an error of the driver,
    a refused or repeated sheet name, an index error, or the exit of a
    cancelled run. *)
Definition loop_error (e : exn) : Prop :=
  match e with
  | Sqlite3Error _ | InvalidWorksheetName | DuplicateWorksheetName
  | IndexError | SystemExit => True
  | _ => False
  end.

(** The sheets of a closed workbook against the tables exported: one sheet
    per table, or the default sheet when there was none. *)
Definition closed_sheets (done : list string) (sheets : list Worksheet)
    : Prop :=
  match done with
  | [] => sheets = [default_sheet 1]
  | _ :: _ => Forall2 sheet_for done sheets
  end.

(* ================================================================== *)
(** * The destination path *)
(* ================================================================== *)

(** [extension] is [None] whatever the path: the branch that strips the
    extension is never taken. *)
Lemma set_save_path_appends (file_path : string) :
  set_save_path file_path = Ok (file_path ++ ".xlsx").
Proof. reflexivity. Qed.

(** C2: for the path [data.db], whose extension is a known one, the code
    keeps the extension and answers [data.db.xlsx], where the rule of the
    specification strips it and answers [data.xlsx]. *)
Theorem set_save_path_keeps_known_extension :
  set_save_path "data.db" = Ok "data.db.xlsx" /\
  destination_path_spec "data.db" = "data.xlsx" /\
  set_save_path "data.db" <> Ok (destination_path_spec "data.db").
Proof.
  repeat split; try reflexivity.
  intros H. discriminate H.
Qed.

(* ================================================================== *)
(** * Opening the source *)
(* ================================================================== *)

(** C3, as stated, fails: when the driver cannot open the file,
    [create_connection] returns [None] after printing the message; nothing
    is raised. *)
Lemma create_connection_failure_returns_none :
  sqlite3_connect failing_driver "missing.db"
    = Raise (Sqlite3Error "unable to open database file") /\
  create_connection failing_driver "missing.db" empty_world
    = (Ok None,
       {| book := book empty_world;
          trace := [EvPrint "unable to open database file"] |}).
Proof. split; reflexivity. Qed.

(** C3, amended: [create_connection] returns the connection the driver
    opened; when the driver raises a [sqlite3.Error] it prints the error and
    returns [None]; any other exception of the driver passes through.  It
    never raises an error of its own. *)
Theorem create_connection_spec (env : Env) (path : string) (w : World) :
  match sqlite3_connect env path with
  | Ok conn => create_connection env path w = (Ok (Some conn), w)
  | Raise (Sqlite3Error msg) =>
      create_connection env path w
      = (Ok None, {| book := book w; trace := (trace w ++ [EvPrint msg])%list |})
  | Raise e => create_connection env path w = (Raise e, w)
  end.
Proof.
  unfold create_connection.
  destruct (sqlite3_connect env path) as [conn | e]; [reflexivity |].
  destruct e; reflexivity.
Qed.

(** Without a connection the thread dies on [conn.cursor()]: the failure
    to open surfaces as an [AttributeError], and no workbook is written. *)
Lemma run_without_connection (env : Env) (self : Converter) (msg : string) :
  sqlite3_connect env (db_file self) = Raise (Sqlite3Error msg) ->
  run env self
  = (Raise AttributeError,
     {| book := Workbook_new (save_path self); trace := [EvPrint msg] |}).
Proof.
  intros H. unfold run, run_body, bind, set_book, create_connection.
  cbn. rewrite H. reflexivity.
Qed.

(* ================================================================== *)
(** * The full-table scan and the table name *)
(* ================================================================== *)

Lemma substring_all (s : string) : substring 0 (String.length s) s = s.
Proof. induction s as [| c s IH]; cbn; [reflexivity | now rewrite IH]. Qed.

Lemma lex_quoted_closed (name : string) :
  no_quote name = true -> lex_quoted (name ++ "'") = Some (name, EmptyString).
Proof.
  induction name as [| c rest IH]; cbn; [reflexivity |].
  intros H. apply andb_true_iff in H as [Hc Hrest].
  apply negb_true_iff in Hc. rewrite Hc, (IH Hrest). reflexivity.
Qed.

(** A name without a single quote comes back from the statement built
    around it. *)
Lemma parse_select_query (name : string) :
  no_quote name = true -> parse_select_all (select_query name) = Ok (Some name).
Proof.
  intros H. unfold parse_select_all, select_query.
  cbn -[lex_quoted].
  replace (String.prefix EmptyString (name ++ "'")) with true
    by (destruct (name ++ "'"); reflexivity).
  rewrite Nat.sub_0_r, substring_all, (lex_quoted_closed _ H). reflexivity.
Qed.

(** C8: the table [it's] exists, and the statement built for it is
    [SELECT * FROM 'it's']: the quote of the name closes the token, the
    statement is rejected as a syntax error and [select_table] raises. *)
Theorem select_table_quote_in_name :
  (exists o, find_object quoted_db "it's" = Some o) /\
  select_query "it's" = "SELECT * FROM 'it's'" /\
  parse_select_all (select_query "it's") = Raise syntax_error /\
  fst (select_table quoted_db "it's" empty_world) = Raise syntax_error.
Proof.
  split; [eexists; reflexivity |]. repeat split; reflexivity.
Qed.

(* ================================================================== *)
(** * Writing a table to its sheet *)
(* ================================================================== *)

Lemma update_sheet_ext (f g : Worksheet -> Worksheet) :
  (forall ws, f ws = g ws) ->
  forall h l, update_sheet h f l = update_sheet h g l.
Proof.
  intros E h l. revert h.
  induction l as [| ws l IH]; intros [| h]; cbn; try reflexivity.
  - now rewrite E.
  - now rewrite IH.
Qed.

Lemma update_sheet_twice (f g : Worksheet -> Worksheet) h l :
  update_sheet h f (update_sheet h g l) = update_sheet h (fun ws => f (g ws)) l.
Proof.
  revert h. induction l as [| ws l IH]; intros [| h]; cbn; try reflexivity.
  now rewrite IH.
Qed.

Lemma update_sheet_id h l : update_sheet h (append_cells []) l = l.
Proof.
  revert h. induction l as [| ws l IH]; intros [| h]; cbn; try reflexivity.
  - destruct ws; unfold append_cells; cbn. now rewrite app_nil_r.
  - now rewrite IH.
Qed.

Lemma update_sheet_last (f : Worksheet -> Worksheet) l ws :
  update_sheet (List.length l) f (l ++ [ws]) = (l ++ [f ws])%list.
Proof. induction l as [| x l IH]; cbn; [reflexivity | now rewrite IH]. Qed.

Lemma add_cells_nil h w : add_cells h [] w = w.
Proof.
  destruct w as [[f l n c] t]. unfold add_cells, set_sheets. cbn.
  now rewrite update_sheet_id.
Qed.

Lemma add_cells_app h cs1 cs2 w :
  add_cells h cs2 (add_cells h cs1 w) = add_cells h (cs1 ++ cs2) w.
Proof.
  unfold add_cells, set_sheets. cbn. rewrite update_sheet_twice.
  f_equal. f_equal. apply update_sheet_ext. intros ws.
  unfold append_cells. cbn. now rewrite app_assoc.
Qed.

Lemma worksheet_write_spec h r c v w :
  worksheet_write h r c v w = (Ok tt, add_cells h [(r, c, v)] w).
Proof. reflexivity. Qed.

Lemma skipn_nth_error {A} (l : list A) k v :
  nth_error l k = Some v -> skipn k l = v :: skipn (S k) l.
Proof.
  revert k. induction l as [| a l IH]; intros [| k] H; cbn in *;
    try discriminate.
  - now inversion H.
  - now apply IH.
Qed.

(** The inner loop over the columns [k, k+1, ..., k+n-1]. *)
Lemma write_row_seq n : forall k h r row w,
  write_row h r row (seq k n) w
  = ((if (n <=? List.length row - k)%nat then Ok tt else Raise IndexError),
     add_cells h (cells_from r k (firstn n (skipn k row))) w).
Proof.
  induction n as [| n IH]; intros k h r row w.
  - cbn. now rewrite add_cells_nil.
  - cbn [seq write_row]. unfold bind at 1, lift, getitem.
    destruct (nth_error row k) as [v |] eqn:E.
    + unfold bind at 1. rewrite worksheet_write_spec, IH.
      rewrite (skipn_nth_error _ _ _ E). cbn [firstn cells_from].
      rewrite add_cells_app. cbn [app].
      assert (Hk : (k < List.length row)%nat)
        by (apply nth_error_Some; congruence).
      replace (S n <=? List.length row - k)%nat
        with (n <=? List.length row - S k)%nat; [reflexivity |].
      destruct (Nat.leb_spec n (List.length row - S k));
        destruct (Nat.leb_spec (S n) (List.length row - k)); trivial; lia.
    + apply nth_error_None in E.
      rewrite (skipn_all2 row E). cbn. rewrite add_cells_nil.
      replace (List.length row - k)%nat with 0%nat by lia. reflexivity.
Qed.

Lemma firstn_short {A} (l : list A) n :
  (List.length l <= n)%nat -> firstn n l = l.
Proof. intros H. now apply firstn_all2. Qed.

(** The outer loop: rows are written in order until one is too short. *)
Lemma write_rows_spec width : forall rows h r w,
  write_rows h (seq 0 width) r rows w
  = ((if all_wide width rows then Ok tt else Raise IndexError),
     add_cells h (written width r rows) w).
Proof.
  induction rows as [| row rest IH]; intros h r w.
  - cbn. now rewrite add_cells_nil.
  - cbn [write_rows written all_wide forallb]. unfold bind.
    rewrite write_row_seq. cbn [skipn]. rewrite Nat.sub_0_r.
    destruct (width <=? List.length row)%nat eqn:E.
    + fold (all_wide width rest). rewrite IH, add_cells_app. reflexivity.
    + cbn. apply Nat.leb_gt in E. rewrite firstn_short by lia. reflexivity.
Qed.

Lemma add_worksheet_spec name w :
  add_worksheet name w
  = match check_sheetname (wb_sheets (book w))
            (S (wb_sheetname_count (book w))) name with
    | Ok given => (Ok (List.length (wb_sheets (book w))), created name given w)
    | Raise e => (Raise e, entered name w)
    end.
Proof.
  unfold add_worksheet, bind, emit, get_book, set_book, lift, ret. cbn.
  destruct (check_sheetname _ _ name); reflexivity.
Qed.

Lemma add_cells_created h cs name given w :
  h = List.length (wb_sheets (book w)) ->
  add_cells h cs (created name given w)
  = {| book := {| wb_filename := wb_filename (book w);
                  wb_sheets := (wb_sheets (book w)
                                ++ [{| ws_name := given; ws_cells := cs |}])%list;
                  wb_sheetname_count := S (wb_sheetname_count (book w));
                  wb_closed := wb_closed (book w) |};
       trace := (trace w ++ [EvAddWorksheet name])%list |}.
Proof.
  intros ->. unfold add_cells, created, set_sheets. cbn.
  now rewrite update_sheet_last.
Qed.

(** The whole method on a table with a header row. *)
Lemma write_table_spec header data name w :
  write_table_to_workbook (header :: data) name w
  = match check_sheetname (wb_sheets (book w))
            (S (wb_sheetname_count (book w))) name with
    | Ok given =>
        ((if all_wide (List.length header) (header :: data)
          then Ok tt else Raise IndexError),
         add_cells (List.length (wb_sheets (book w)))
           (written (List.length header) 0 (header :: data))
           (created name given w))
    | Raise e => (Raise e, entered name w)
    end.
Proof.
  unfold write_table_to_workbook. unfold bind at 1.
  rewrite add_worksheet_spec.
  destruct (check_sheetname _ _ name) as [given | e]; [| reflexivity].
  unfold bind, lift, getitem. cbn [nth_error].
  now rewrite write_rows_spec.
Qed.

Lemma write_table_empty name w :
  write_table_to_workbook [] name w
  = match check_sheetname (wb_sheets (book w))
            (S (wb_sheetname_count (book w))) name with
    | Ok given => (Raise IndexError, created name given w)
    | Raise e => (Raise e, entered name w)
    end.
Proof.
  unfold write_table_to_workbook. unfold bind at 1.
  rewrite add_worksheet_spec.
  now destruct (check_sheetname _ _ name).
Qed.
Lemma check_sheetname_given existing count name given :
  check_sheetname existing count name = Ok given ->
  given = if String.eqb name EmptyString then "Sheet" ++ decimal count else name.
Proof.
  unfold check_sheetname.
  repeat match goal with
         | |- context [if ?b then Raise _ else _] => destruct b; try discriminate
         end.
  intros H. now inversion H.
Qed.

Lemma check_sheetname_refusal existing count name e :
  check_sheetname existing count name = Raise e ->
  e = InvalidWorksheetName \/ e = DuplicateWorksheetName.
Proof.
  unfold check_sheetname.
  repeat match goal with
         | |- context [if ?b then Raise _ else _] => destruct b
         end;
    intros H; inversion H; auto.
Qed.

(** The check, case by case. *)
Lemma check_sheetname_cases existing count name :
  let asked :=
    if String.eqb name EmptyString then "Sheet" ++ decimal count else name in
  check_sheetname existing count name
  = if (31 <? str_len asked)%nat || has_invalid_char asked
       || startswith "'" asked || endswith "'" asked
    then Raise InvalidWorksheetName
    else if existsb (fun ws => String.eqb (str_lower asked)
                                          (str_lower (ws_name ws))) existing
         then Raise DuplicateWorksheetName
         else Ok asked.
Proof.
  cbn zeta. unfold check_sheetname.
  destruct (31 <? str_len _)%nat; [reflexivity |].
  destruct (has_invalid_char _); [reflexivity |].
  destruct (startswith "'" _); [reflexivity |].
  destruct (endswith "'" _); reflexivity.
Qed.

(** C9, amended: [write_table_to_workbook] asks the workbook for a sheet
    under the table name as it is, without cutting, cleaning or
    disambiguating it (for the empty name the workbook takes its default
    [SheetN]).  A name of more than 31 characters, holding one of the
    characters [[]:*?/\] or starting or ending with an apostrophe makes the
    method fail with [InvalidWorksheetName]; a name equal, once both are put
    in lower case, to that of a sheet of the workbook makes it fail with
    [DuplicateWorksheetName]; in both cases the error reaches the caller and
    no sheet is created.  Every other name names the new sheet, unchanged. *)
Theorem sheet_name_passed_unchanged (table : list (list value))
    (name : string) (w : World) :
  let count := S (wb_sheetname_count (book w)) in
  let asked :=
    if String.eqb name EmptyString then "Sheet" ++ decimal count else name in
  let r := write_table_to_workbook table name w in
  trace (snd r) = (trace w ++ [EvAddWorksheet name])%list /\
  if (31 <? str_len asked)%nat || has_invalid_char asked
     || startswith "'" asked || endswith "'" asked
  then r = (Raise InvalidWorksheetName, entered name w) /\
       wb_sheets (book (snd r)) = wb_sheets (book w)
  else if existsb (fun ws => String.eqb (str_lower asked)
                                        (str_lower (ws_name ws)))
                  (wb_sheets (book w))
       then r = (Raise DuplicateWorksheetName, entered name w) /\
            wb_sheets (book (snd r)) = wb_sheets (book w)
       else exists cells,
              wb_sheets (book (snd r))
              = (wb_sheets (book w)
                 ++ [{| ws_name := asked; ws_cells := cells |}])%list.
Proof.
  cbn zeta.
  assert (R : forall e,
             check_sheetname (wb_sheets (book w))
               (S (wb_sheetname_count (book w))) name = Raise e ->
             write_table_to_workbook table name w = (Raise e, entered name w)).
  { intros e E. unfold write_table_to_workbook. unfold bind at 1.
    now rewrite add_worksheet_spec, E. }
  pose proof (check_sheetname_cases (wb_sheets (book w))
                (S (wb_sheetname_count (book w))) name) as C.
  cbn zeta in C.
  destruct ((31 <? str_len _)%nat || has_invalid_char _
            || startswith "'" _ || endswith "'" _).
  - rewrite (R _ C). repeat split.
  - destruct (existsb _ (wb_sheets (book w))).
    + rewrite (R _ C). repeat split.
    + destruct table as [| header data].
      * rewrite write_table_empty, C. cbn [snd].
        split; [reflexivity |]. exists []. reflexivity.
      * rewrite write_table_spec, C. cbn [snd].
        rewrite add_cells_created by reflexivity.
        split; [reflexivity |]. eexists. reflexivity.
Qed.

Lemma written_wide width : forall pre rest r,
  all_wide width pre = true ->
  written width r (pre ++ rest)
  = (row_major r (map (firstn width) pre)
     ++ written width (r + List.length pre) rest)%list.
Proof.
  induction pre as [| row pre IH]; intros rest r H.
  - cbn. now rewrite Nat.add_0_r.
  - cbn in H. apply andb_true_iff in H as [Hrow Hpre].
    cbn [app written map row_major List.length]. rewrite Hrow.
    rewrite (IH rest (S r) Hpre), <- app_assoc.
    now rewrite Nat.add_succ_r.
Qed.

Lemma all_wide_app width pre rest :
  all_wide width pre = true ->
  all_wide width (pre ++ rest) = all_wide width rest.
Proof.
  intros H. unfold all_wide in *. now rewrite forallb_app, H.
Qed.

Lemma all_wide_Forall width rows :
  Forall (fun row => (width <= List.length row)%nat) rows ->
  all_wide width rows = true.
Proof.
  intros H. unfold all_wide. apply forallb_forall. intros row Hin.
  rewrite Forall_forall in H. apply Nat.leb_le. now apply H.
Qed.
(** The method on a table whose data rows are [pre ++ rest], [pre] wide
    enough throughout and [rest] empty or headed by a short row. *)
Lemma write_table_result (header : list value)
    (pre rest : list (list value)) (name given : string) (w : World) :
  let width := List.length header in
  check_sheetname (wb_sheets (book w)) (S (wb_sheetname_count (book w))) name
    = Ok given ->
  Forall (fun row => (width <= List.length row)%nat) pre ->
  match rest with
  | [] => True
  | row :: _ => (List.length row < width)%nat
  end ->
  write_table_to_workbook (header :: pre ++ rest) name w
  = (match rest with
     | [] => Ok tt
     | _ :: _ => Raise IndexError
     end,
     {| book :=
          {| wb_filename := wb_filename (book w);
             wb_sheets :=
               (wb_sheets (book w)
                ++ [{| ws_name := given;
                       ws_cells :=
                         (row_major 0 (header :: map (firstn width) pre)
                          ++ match rest with
                             | [] => []
                             | row :: _ =>
                                 cells_from (S (List.length pre)) 0 row
                             end)%list |}])%list;
             wb_sheetname_count := S (wb_sheetname_count (book w));
             wb_closed := wb_closed (book w) |};
        trace := (trace w ++ [EvAddWorksheet name])%list |}).
Proof.
  intros width Hname Hpre Hrest.
  rewrite write_table_spec, Hname.
  rewrite add_cells_created by reflexivity.
  assert (Hall : all_wide width (header :: pre) = true).
  { apply all_wide_Forall. constructor; [apply Nat.le_refl | exact Hpre]. }
  change (header :: pre ++ rest) with ((header :: pre) ++ rest)%list.
  fold width. rewrite (all_wide_app _ _ _ Hall), (written_wide _ _ _ _ Hall).
  cbn [map List.length Nat.add].
  replace (firstn width header) with header
    by (symmetry; apply firstn_all).
  destruct rest as [| row rest'].
  - cbn. reflexivity.
  - cbn [all_wide forallb written].
    apply Nat.leb_gt in Hrest. rewrite Hrest. cbn [andb].
    reflexivity.
Qed.

(* ================================================================== *)
(** * Reading a table *)
(* ================================================================== *)

(** A name without a quote that stands for a table or view of the catalog:
    the statement is a full scan of it. *)
Lemma select_table_spec conn name o w :
  no_quote name = true ->
  find_object conn name = Some o ->
  select_table conn name w
  = (Ok (map VText (obj_columns o) :: obj_rows o),
     {| book := book w;
        trace := (trace w ++ [EvExecute (select_query name)])%list |}).
Proof.
  intros Hq Hfind. unfold select_table, bind, emit, lift, ret, execute.
  cbn [book trace]. now rewrite (parse_select_query _ Hq), Hfind.
Qed.

Lemma engine_answer_raises conn sql e :
  engine_answer conn sql = Raise e -> exists msg, e = Sqlite3Error msg.
Proof.
  unfold engine_answer. destruct (sqlite_other conn sql) as [cur | msg];
    intros H; inversion H. now exists msg.
Qed.

Lemma parse_select_all_raises sql e :
  parse_select_all sql = Raise e -> e = syntax_error.
Proof.
  unfold parse_select_all.
  repeat match goal with
         | |- context [match ?x with _ => _ end] => destruct x
         end; intros H; inversion H; reflexivity.
Qed.

Lemma execute_raises conn sql e :
  execute conn sql = Raise e -> exists msg, e = Sqlite3Error msg.
Proof.
  unfold execute.
  destruct (parse_select_all sql) as [[n |] | e'] eqn:E.
  - destruct (find_object conn n); [discriminate | apply engine_answer_raises].
  - apply engine_answer_raises.
  - intros H. inversion H. subst e'.
    apply parse_select_all_raises in E. subst e. now eexists.
Qed.

Lemma select_table_effect conn name w :
  snd (select_table conn name w)
  = {| book := book w;
       trace := (trace w ++ [EvExecute (select_query name)])%list |} /\
  match fst (select_table conn name w) with
  | Ok table => table <> []
  | Raise e => e <> SystemExit
  end.
Proof.
  unfold select_table, bind, emit, lift, ret. cbn [book trace].
  destruct (execute conn (select_query name)) as [cur | e] eqn:E; cbn.
  - split; [reflexivity | discriminate].
  - split; [reflexivity |].
    apply execute_raises in E as [msg ->]. discriminate.
Qed.

(** C1: the database holds a table named [a''b], of one column [x] and one
    row, and a view named [a'b], of one column [y] and one row.  The table is
    exported: the statement built for it is [SELECT * FROM 'a''b'], in which
    the doubled quote stands for one quote, so that the engine scans the
    view.  The run returns, and the sheet named after the table has received
    the view's column name and row, not the table's. *)
Theorem doubled_quote_exports_another_object :
  exported_names doubled_quote_db = ["a''b"] /\
  (exists o,
     nth_error doubled_quote_db 0 = Some o /\ obj_type o = "table" /\
     obj_name o = "a''b" /\ obj_columns o = ["x"] /\ obj_rows o = [[VInt 1]]) /\
  select_query "a''b" = "SELECT * FROM 'a''b'" /\
  parse_select_all (select_query "a''b") = Ok (Some "a'b") /\
  fst (select_table doubled_quote_db "a''b" empty_world)
    = Ok [[VText "y"]; [VInt 2]] /\
  fst (run (sample_env doubled_quote_db never_stopped) sample_job) = Ok tt /\
  wb_sheets (book (snd (run (sample_env doubled_quote_db never_stopped)
                            sample_job)))
    = [{| ws_name := "a''b";
          ws_cells := [(0, 0, VText "y"); (1, 0, VInt 2)]%nat |}].
Proof.
  split; [reflexivity |].
  split; [eexists; repeat split; reflexivity |].
  repeat split; reflexivity.
Qed.

(* ================================================================== *)
(** * The loop of [run] *)
(* ================================================================== *)

Lemma write_table_effect table name w :
  exists news,
    trace (snd (write_table_to_workbook table name w))
      = (trace w ++ [EvAddWorksheet name])%list /\
    wb_sheets (book (snd (write_table_to_workbook table name w)))
      = (wb_sheets (book w) ++ news)%list /\
    wb_closed (book (snd (write_table_to_workbook table name w)))
      = wb_closed (book w) /\
    wb_filename (book (snd (write_table_to_workbook table name w)))
      = wb_filename (book w) /\
    match fst (write_table_to_workbook table name w) with
    | Ok _ => exists ws, news = [ws] /\ sheet_for name ws
    | Raise e => e <> SystemExit
    end.
Proof.
  destruct (check_sheetname (wb_sheets (book w))
              (S (wb_sheetname_count (book w))) name) as [given | e] eqn:E.
  - assert (Hfor : forall cells,
               sheet_for name {| ws_name := given; ws_cells := cells |}).
    { intros cells. unfold sheet_for. cbn.
      apply check_sheetname_given in E.
      destruct (String.eqb_spec name EmptyString); [now left | now right]. }
    destruct table as [| header data].
    + exists [{| ws_name := given; ws_cells := [] |}].
      rewrite write_table_empty, E. cbn.
      repeat split; try reflexivity. discriminate.
    + rewrite write_table_spec, E. cbn [fst snd].
      rewrite add_cells_created by reflexivity. cbn [book trace wb_sheets
        wb_closed wb_filename].
      eexists. repeat split; try reflexivity.
      destruct (all_wide _ _); [| discriminate].
      eexists. split; [reflexivity | apply Hfor].
  - exists [].
    assert (R : write_table_to_workbook table name w = (Raise e, entered name w)).
    { unfold write_table_to_workbook. unfold bind at 1.
      now rewrite add_worksheet_spec, E. }
    rewrite R. cbn. rewrite app_nil_r. repeat split.
    apply check_sheetname_refusal in E. destruct E; subst; discriminate.
Qed.

Lemma progress_arg_raise i total e :
  progress_arg i total = Raise e -> e <> SystemExit.
Proof.
  unfold progress_arg, truediv.
  destruct (_ =? _)%Z; intros H; inversion H; discriminate.
Qed.

(** Every run of the loop has one of the shapes of [loop_run]; the
    workbook gains one sheet for each completed iteration and is not
    closed. *)
Lemma export_tables_run env conn total : forall names i w r w',
  export_tables env conn total i names w = (r, w') ->
  exists evs done news,
    trace w' = (trace w ++ evs)%list /\
    loop_run env total i names r evs done /\
    wb_sheets (book w') = (wb_sheets (book w) ++ news)%list /\
    wb_closed (book w') = wb_closed (book w) /\
    wb_filename (book w') = wb_filename (book w) /\
    match r with
    | Raise SystemExit | Ok _ => Forall2 sheet_for done news
    | Raise _ => True
    end.
Proof.
  induction names as [| name rest IH]; intros i w r w' H.
  - cbn in H. inversion H; subst. exists [], [], []. rewrite !app_nil_r.
    repeat split; constructor.
  - cbn [export_tables] in H. unfold bind at 1 in H.
    destruct (select_table_effect conn name w) as [Hw1 Hr1].
    destruct (select_table conn name w) as [[table | e1] w1];
      cbn [fst snd] in *.
    2:{ inversion H; subst.
        exists [EvExecute (select_query name)], [], [].
        cbn [book trace]. rewrite app_nil_r.
        repeat split; try (now constructor).
        all: destruct e1; trivial; now contradiction Hr1. }
    unfold bind at 1 in H.
    destruct (write_table_effect table name w1)
      as (news1 & Ht2 & Hs2 & Hc2 & Hf2 & Hr2).
    destruct (write_table_to_workbook table name w1) as [[[] | e2] w2];
      cbn [fst snd] in *.
    2:{ inversion H; subst.
        exists [EvExecute (select_query name); EvAddWorksheet name], [], news1.
        rewrite Ht2, Hs2, Hc2, Hf2. cbn [book trace].
        rewrite <- app_assoc.
        repeat split; try (now constructor).
        all: destruct e2; trivial; now contradiction Hr2. }
    destruct Hr2 as (ws & -> & Hfor).
    unfold bind at 1, lift in H.
    destruct (progress_arg i total) as [x | e3] eqn:E3.
    2:{ inversion H; subst.
        exists [EvExecute (select_query name); EvAddWorksheet name], [], [ws].
        rewrite Ht2, Hs2, Hc2, Hf2. cbn [book trace].
        rewrite <- app_assoc.
        pose proof (progress_arg_raise _ _ _ E3) as Hne.
        repeat split; try (now constructor).
        all: destruct e3; trivial; now contradiction Hne. }
    unfold bind at 1, emit in H. unfold bind at 1, stopped, emit, ret in H.
    unfold bind at 1 in H. cbn [book trace] in H.
    destruct (stopped_at env i) eqn:Es.
    + unfold raise in H. inversion H; subst.
      exists (iteration env i name x), [name], [ws].
      unfold iteration. cbn [book trace].
      rewrite Ht2, Hs2, Hc2, Hf2, Es. cbn [book trace].
      rewrite <- !app_assoc. cbn [app].
      repeat split.
      * pose proof (loop_exit env total i name rest x E3 Es) as L.
        unfold iteration in L. now rewrite Es in L.
      * constructor; [exact Hfor | constructor].
    + apply IH in H.
      destruct H as (evs & done & news & Ht & Hl & Hs & Hc & Hf & Hr).
      exists (iteration env i name x ++ evs)%list, (name :: done), (ws :: news).
      rewrite Ht, Hs, Hc, Hf. cbn [book trace].
      rewrite Ht2, Hs2, Hc2, Hf2. subst w1. cbn [book trace].
      unfold iteration. rewrite Es, <- !app_assoc. cbn [app].
      repeat split.
      * pose proof (loop_next env total i name rest x _ evs done E3 Es Hl) as L.
        unfold iteration in L. now rewrite Es in L.
      * destruct r as [| e]; [now constructor |].
        destruct e; trivial. now constructor.
Qed.

(** What the shapes of [loop_run] have in common. *)
Lemma loop_run_facts env total i names r evs done :
  loop_run env total i names r evs done ->
  polls evs = map (stopped_at env) (seq i (List.length done)) /\
  map Ok (progress_events evs)
    = map (fun j => progress_arg j total) (seq i (List.length done)) /\
  (List.length done <= List.length names)%nat /\
  (r = Ok tt -> done = names) /\
  (In (EvStopped true) evs <-> r = Raise SystemExit) /\
  after_stop evs = [] /\
  Forall loop_event evs.
Proof.
  induction 1 as [i | i name rest x r evs done Hx Hs _ IH
                  | i name rest x Hx Hs | i name rest e He | i name rest e He].
  - cbn. repeat split; try constructor; try easy.
  - destruct IH as (Hp & Hg & Hl & Hok & Hstop & Haft & Hev).
    unfold iteration. cbn [app List.length].
    split; [| split; [| split; [| split; [| split; [| split]]]]].
    + cbn [polls seq map]. now rewrite Hp.
    + cbn [progress_events seq map]. now rewrite Hg, Hx.
    + lia.
    + intros ->. now rewrite Hok.
    + rewrite Hs. split.
      * intros [K | [K | [K | [K | K]]]]; try discriminate. now apply Hstop.
      * intros K. do 4 right. now apply Hstop.
    + rewrite Hs. exact Haft.
    + repeat constructor. exact Hev.
  - unfold iteration. cbn [app List.length].
    split; [| split; [| split; [| split; [| split; [| split]]]]].
    + reflexivity.
    + cbn. now rewrite Hx.
    + cbn. lia.
    + discriminate.
    + rewrite Hs. split; [reflexivity |]. intros _. do 3 right. now left.
    + rewrite Hs. reflexivity.
    + repeat constructor.
  - split; [| split; [| split; [| split; [| split; [| split]]]]].
    + reflexivity.
    + reflexivity.
    + cbn. lia.
    + discriminate.
    + split; [intros [K | []]; discriminate |].
      intros K. inversion K. congruence.
    + reflexivity.
    + repeat constructor.
  - split; [| split; [| split; [| split; [| split; [| split]]]]].
    + reflexivity.
    + reflexivity.
    + cbn. lia.
    + discriminate.
    + split; [intros [K | [K | []]]; discriminate |].
      intros K. inversion K. congruence.
    + reflexivity.
    + repeat constructor.
Qed.

(** In every shape a read of the flag comes right after the sheet of a
    table was written and its progress emitted, whatever follows the
    loop. *)
Lemma loop_run_reads env total i names r evs done (sfx : list event) :
  loop_run env total i names r evs done ->
  (forall b, ~ In (EvStopped b) sfx) ->
  forall pre b post,
    (evs ++ sfx)%list = (pre ++ EvStopped b :: post)%list ->
    exists pre' name x,
      pre = (pre' ++ [EvAddWorksheet name; EvUpdateProg x])%list.
Proof.
  intros L Hsfx.
  assert (Hnil : forall l pre b post,
             (forall e, In e l -> forall b', e <> EvStopped b') ->
             (l ++ sfx)%list = (pre ++ EvStopped b :: post)%list -> False).
  { intros l pre b post Hl E.
    assert (Hin : In (EvStopped b) (l ++ sfx)%list)
      by (rewrite E; apply in_elt).
    apply in_app_or in Hin as [Hin | Hin].
    - now apply (Hl _ Hin b).
    - now apply (Hsfx b). }
  induction L as [i | i name rest x r evs done Hx Hs L IH
                  | i name rest x Hx Hs | i name rest e He | i name rest e He];
    intros pre b post E.
  - exfalso. apply (Hnil [] pre b post); [intros e [] | exact E].
  - unfold iteration in E. cbn [app] in E.
    destruct pre as [| p1 [| p2 [| p3 [| p4 pre]]]]; cbn [app] in E;
      try (now inversion E).
    + injection E as <- <- <- _ _.
      exists [EvExecute (select_query name)], name, x. reflexivity.
    + injection E as <- <- <- <- E.
      destruct (IH _ _ _ E) as (pre' & name' & x' & ->).
      exists (EvExecute (select_query name) :: EvAddWorksheet name
              :: EvUpdateProg x :: EvStopped (stopped_at env i) :: pre')%list,
        name', x'.
      reflexivity.
  - unfold iteration in E. cbn [app] in E.
    destruct pre as [| p1 [| p2 [| p3 [| p4 pre]]]]; cbn [app] in E;
      try (now inversion E).
    + injection E as <- <- <- _ _.
      exists [EvExecute (select_query name)], name, x. reflexivity.
    + injection E as _ _ _ _ E.
      exfalso. apply (Hnil [] pre b post); [intros e' [] | exact E].
  - exfalso. apply (Hnil [EvExecute (select_query name)] pre b post);
      [| exact E].
    intros e' [<- | []] b'. discriminate.
  - exfalso.
    apply (Hnil [EvExecute (select_query name); EvAddWorksheet name]
             pre b post); [| exact E].
    intros e' [<- | [<- | []]] b'; discriminate.
Qed.

Lemma after_stop_app evs sfx :
  ~ In (EvStopped true) evs ->
  after_stop (evs ++ sfx) = after_stop sfx.
Proof.
  induction evs as [| e evs IH]; intros H; [reflexivity |].
  cbn [app after_stop].
  destruct e as [| | | | [|] | | |]; try (apply IH; intros H'; apply H; now right).
  exfalso. apply H. now left.
Qed.

Lemma polls_app evs sfx : polls (evs ++ sfx) = (polls evs ++ polls sfx)%list.
Proof.
  induction evs as [| e evs IH]; [reflexivity |].
  destruct e; cbn; now rewrite IH.
Qed.

Lemma progress_events_app evs sfx :
  progress_events (evs ++ sfx)
  = (progress_events evs ++ progress_events sfx)%list.
Proof.
  induction evs as [| e evs IH]; [reflexivity |].
  destruct e; cbn; now rewrite IH.
Qed.

Lemma select_table_raises conn name w e :
  fst (select_table conn name w) = Raise e -> exists msg, e = Sqlite3Error msg.
Proof.
  unfold select_table, bind, emit, lift, ret. cbn [book trace].
  destruct (execute conn (select_query name)) as [cur | e'] eqn:E; cbn;
    intros H; inversion H; subst.
  now apply execute_raises in E.
Qed.

Lemma write_table_raises table name w e :
  fst (write_table_to_workbook table name w) = Raise e ->
  e = InvalidWorksheetName \/ e = DuplicateWorksheetName \/ e = IndexError.
Proof.
  destruct table as [| header data].
  - rewrite write_table_empty.
    destruct (check_sheetname _ _ name) as [given | e'] eqn:E; cbn;
      intros H; inversion H; subst; auto.
    apply check_sheetname_refusal in E. tauto.
  - rewrite write_table_spec.
    destruct (check_sheetname _ _ name) as [given | e'] eqn:E; cbn [fst].
    + destruct (all_wide (List.length header) (header :: data));
        intros H; inversion H; subst; auto.
    + intros H. inversion H; subst.
      apply check_sheetname_refusal in E. tauto.
Qed.


(** The exceptions of the loop, entered with a table count that is not
    zero. *)
Lemma export_tables_raises env conn total : forall names i w e,
  total <> 0%nat ->
  fst (export_tables env conn total i names w) = Raise e ->
  loop_error e.
Proof.
  induction names as [| name rest IH]; intros i w e Ht H.
  - discriminate H.
  - cbn [export_tables] in H. unfold bind at 1 in H.
    pose proof (select_table_raises conn name w) as Hs.
    destruct (select_table conn name w) as [[table | e1] w1]; cbn [fst] in *.
    2:{ inversion H; subst. destruct (Hs _ eq_refl) as [msg ->]. exact I. }
    unfold bind at 1 in H.
    pose proof (write_table_raises table name w1) as Hw.
    destruct (write_table_to_workbook table name w1) as [[[] | e2] w2];
      cbn [fst] in *.
    2:{ inversion H; subst.
        destruct (Hw _ eq_refl) as [-> | [-> | ->]]; exact I. }
    unfold bind at 1, lift in H.
    unfold progress_arg, truediv in H.
    replace (Z.of_nat total =? 0)%Z with false in H
      by (symmetry; apply Z.eqb_neq; lia).
    unfold bind at 1, emit in H. unfold bind at 1, stopped, emit, ret in H.
    unfold bind at 1 in H. cbn [book trace] in H.
    destruct (stopped_at env i).
    + unfold raise in H. inversion H; subst. exact I.
    + exact (IH _ _ _ Ht H).
Qed.

Lemma with_default_sheet_facts wb :
  wb_closed (with_default_sheet wb) = wb_closed wb /\
  wb_filename (with_default_sheet wb) = wb_filename wb /\
  wb_sheets (with_default_sheet wb)
  = match wb_sheets wb with
    | [] => [default_sheet (S (wb_sheetname_count wb))]
    | _ :: _ => wb_sheets wb
    end.
Proof.
  unfold with_default_sheet. destruct (wb_sheets wb) eqn:E; cbn;
    repeat split; try reflexivity. exact E.
Qed.

(** [run] once the driver has opened the database: the loop, then, if
    the loop returned, the three closing steps. *)
Lemma run_connected env self conn :
  sqlite3_connect env (db_file self) = Ok conn ->
  let names := exported_names conn in
  run env self
  = match export_tables env conn (List.length names) 0 names
            {| book := Workbook_new (save_path self); trace := [] |} with
    | (Ok _, w1) =>
        if can_create env (wb_filename (book w1))
        then match pack env (wb_sheets (with_default_sheet (book w1))) with
             | None =>
                 (Ok tt,
                  {| book := close_book (with_default_sheet (book w1));
                     trace := (trace w1 ++ [EvWait; EvClose; EvDone])%list |})
             | Some f =>
                 (Raise (pack_exn f),
                  {| book := with_default_sheet (book w1);
                     trace := (trace w1 ++ [EvWait])%list |})
             end
        else (Raise FileCreateError,
              {| book := book w1; trace := (trace w1 ++ [EvWait])%list |})
    | (Raise e, w1) => (Raise e, w1)
    end.
Proof.
  intros Hconn names.
  unfold run, run_body. unfold bind at 1, set_book. cbn [book trace].
  unfold bind at 1, create_connection. rewrite Hconn. unfold ret at 1.
  fold (exported_names conn). fold names.
  unfold bind at 1.
  destruct (export_tables env conn (List.length names) 0 names _)
    as [[[] | e] w1]; [| reflexivity].
  unfold bind at 1, emit. unfold bind at 1, workbook_close.
  unfold bind at 1, get_book. cbn [book trace].
  destruct (can_create env (wb_filename (book w1))); [| reflexivity].
  unfold bind at 1, set_book. cbn [book trace].
  destruct (pack env (wb_sheets (with_default_sheet (book w1)))) as [f |].
  - reflexivity.
  - unfold bind, set_book, emit, close_book. cbn [book trace].
    now rewrite <- !app_assoc.
Qed.

Lemma Forall2_length_eq {A B} (R : A -> B -> Prop) l1 l2 :
  Forall2 R l1 l2 -> List.length l1 = List.length l2.
Proof. induction 1; cbn; congruence. Qed.

(** The cases of a run once the database is open: the events of the loop,
    followed by the closing steps if the loop returned. *)
Lemma run_cases env self conn :
  sqlite3_connect env (db_file self) = Ok conn ->
  let names := exported_names conn in
  exists r1 evs done sfx,
    loop_run env (List.length names) 0 names r1 evs done /\
    trace (snd (run env self)) = (evs ++ sfx)%list /\
    ((r1 = Ok tt /\ sfx = [EvWait; EvClose; EvDone] /\
      fst (run env self) = Ok tt /\
      wb_closed (book (snd (run env self))) = true /\
      can_create env (save_path self) = true /\
      closed_sheets done (wb_sheets (book (snd (run env self)))))
     \/ (r1 = Ok tt /\ sfx = [EvWait] /\
         (exists e, fst (run env self) = Raise e /\ e <> SystemExit) /\
         wb_closed (book (snd (run env self))) = false /\
         ((fst (run env self) = Raise FileCreateError /\
           can_create env (save_path self) = false /\
           Forall2 sheet_for done (wb_sheets (book (snd (run env self)))))
          \/ (exists f, fst (run env self) = Raise (pack_exn f) /\
                        can_create env (save_path self) = true)))
     \/ (exists e, r1 = Raise e /\ sfx = [] /\
         fst (run env self) = Raise e /\
         wb_closed (book (snd (run env self))) = false /\
         (e = SystemExit ->
          Forall2 sheet_for done (wb_sheets (book (snd (run env self))))) /\
         loop_error e)).
Proof.
  intros Hconn names.
  rewrite (run_connected env self conn Hconn). fold names.
  destruct (export_tables env conn (List.length names) 0 names _)
    as [r1 w1] eqn:E.
  assert (Hcount : names = [] -> wb_sheetname_count (book w1) = 0%nat).
  { intros Hn. rewrite Hn in E. cbn in E. inversion E. reflexivity. }
  assert (Herr : forall e, r1 = Raise e -> loop_error e).
  { intros e ->. destruct names as [| name rest] eqn:En; [discriminate E |].
    apply (export_tables_raises env conn (List.length (name :: rest))
             (name :: rest) 0
             {| book := Workbook_new (save_path self); trace := [] |}).
    - discriminate.
    - now rewrite E. }
  apply export_tables_run in E.
  destruct E as (evs & done & news & Ht & Hl & Hs & Hc & Hf & Hr).
  cbn [book trace wb_sheets wb_closed wb_filename Workbook_new app] in *.
  destruct (with_default_sheet_facts (book w1)) as (Dc & Df & Ds).
  destruct r1 as [[] | e].
  - rewrite Hf. destruct (can_create env (save_path self)) eqn:Ec.
    + destruct (pack env (wb_sheets (with_default_sheet (book w1))))
        as [f |] eqn:Ep.
      * exists (Ok tt), evs, done, [EvWait].
        split; [exact Hl |]. cbn [fst snd book trace].
        split; [now rewrite Ht |]. right. left.
        split; [reflexivity |]. split; [reflexivity |].
        split; [exists (pack_exn f); split;
                [reflexivity | destruct f; discriminate] |].
        split; [congruence |]. right. exists f. split; reflexivity.
      * exists (Ok tt), evs, done, [EvWait; EvClose; EvDone].
        split; [exact Hl |]. cbn [fst snd book trace close_book wb_sheets wb_closed].
        split; [now rewrite Ht |]. left.
        repeat split.
        rewrite Ds, Hs. unfold closed_sheets.
        destruct news as [| ws news'].
        -- inversion Hr. subst done.
           destruct (loop_run_facts _ _ _ _ _ _ _ Hl) as (_ & _ & _ & Hdn & _).
           rewrite Hcount by (symmetry; now apply Hdn). reflexivity.
        -- inversion Hr; subst. constructor; assumption.
    + exists (Ok tt), evs, done, [EvWait].
      split; [exact Hl |]. cbn [fst snd book trace].
      split; [now rewrite Ht |]. right. left.
      split; [reflexivity |]. split; [reflexivity |].
      split; [exists FileCreateError; split; [reflexivity | discriminate] |].
      split; [congruence |]. left.
      repeat split. now rewrite Hs.
  - exists (Raise e), evs, done, [].
    split; [exact Hl |]. cbn [fst snd].
    split; [now rewrite app_nil_r |]. right. right.
    exists e. split; [reflexivity |]. split; [reflexivity |].
    split; [reflexivity |]. split; [congruence |].
    split; [intros ->; now rewrite Hs | now apply Herr].
Qed.

(* ================================================================== *)
(** * Cancellation *)
(* ================================================================== *)

(** C4, amended: the flag is read once per table, right after the table's
    sheet has been written and its progress emitted; the [j]-th read is the
    one of table [j].  When a read returns set, the run ends there with
    [SystemExit]: nothing follows that read, so no further table is read or
    written, the finalizing and done notifications are not emitted and the
    workbook is not closed; it holds one sheet for each read made, the last
    table begun being complete.  The run ends with [SystemExit] in no other
    case: a flag set where no read remains (no table, or after the last
    read) is not seen. *)
Theorem flag_is_read_between_tables (env : Env) (self : Converter)
    (conn : Connection) :
  sqlite3_connect env (db_file self) = Ok conn ->
  let r := fst (run env self) in
  let tr := trace (snd (run env self)) in
  let wb := book (snd (run env self)) in
  (forall pre b post,
     tr = (pre ++ EvStopped b :: post)%list ->
     exists pre' name x,
       pre = (pre' ++ [EvAddWorksheet name; EvUpdateProg x])%list) /\
  polls tr = map (stopped_at env) (seq 0 (List.length (polls tr))) /\
  (List.length (polls tr) <= List.length (exported_names conn))%nat /\
  after_stop tr = [] /\
  (In (EvStopped true) tr <-> r = Raise SystemExit) /\
  (r = Raise SystemExit ->
   wb_closed wb = false /\
   ~ In EvWait tr /\ ~ In EvClose tr /\ ~ In EvDone tr /\
   List.length (wb_sheets wb) = List.length (polls tr)).
Proof.
  intros Hconn r tr wb. subst r tr wb.
  destruct (run_cases env self conn Hconn)
    as (r1 & evs & done & sfx & Hl & Ht & Hcases).
  destruct (loop_run_facts _ _ _ _ _ _ _ Hl)
    as (Hp & Hg & Hlen & Hok & Hstop & Haft & Hev).
  assert (Hsfx : forall b, ~ In (EvStopped b) sfx).
  { intros b Hin.
    destruct Hcases as [(_ & -> & _) | [(_ & -> & _) | (e & _ & -> & _)]];
      cbn in Hin; intuition discriminate. }
  assert (Hpolls : polls (evs ++ sfx) = polls evs).
  { rewrite polls_app.
    destruct Hcases as [(_ & -> & _) | [(_ & -> & _) | (e & _ & -> & _)]];
      cbn; now rewrite app_nil_r. }
  assert (Hplen : List.length (polls evs) = List.length done)
    by (rewrite Hp; now rewrite length_map, length_seq).
  rewrite Ht, Hpolls.
  split; [| split; [| split; [| split; [| split]]]].
  - intros pre b post E. exact (loop_run_reads _ _ _ _ _ _ _ sfx Hl Hsfx _ _ _ E).
  - rewrite Hplen. exact Hp.
  - rewrite Hplen. exact Hlen.
  - destruct Hcases as [(-> & -> & _) | [(-> & -> & _) | (e & _ & -> & _)]].
    + rewrite after_stop_app; [reflexivity |].
      intros K. apply Hstop in K. discriminate K.
    + rewrite after_stop_app; [reflexivity |].
      intros K. apply Hstop in K. discriminate K.
    + now rewrite app_nil_r.
  - split.
    + intros K. apply in_app_or in K as [K | K]; [| now apply Hsfx in K].
      apply Hstop in K.
      destruct Hcases
        as [(Hr & _) | [(Hr & _) | (e & Hr & _ & Hf & _)]]; try congruence.
    + intros K. apply in_or_app. left. apply Hstop.
      destruct Hcases
        as [(_ & _ & Hf & _) | [(_ & _ & (e' & Hf & Hne) & _)
                               | (e & Hr & _ & Hf & _)]];
        congruence.
  - intros K.
    destruct Hcases
      as [(_ & _ & Hf & _) | [(_ & _ & (e' & Hf & Hne) & _)
                             | (e & Hr & -> & Hf & Hc & Hsh & _)]];
      try congruence.
    assert (e = SystemExit) by congruence. subst e.
    rewrite app_nil_r.
    assert (Hno : forall ev, In ev evs -> loop_event ev)
      by (now apply Forall_forall).
    repeat split; try assumption.
    + intros Hin. exact (Hno _ Hin).
    + intros Hin. exact (Hno _ Hin).
    + intros Hin. exact (Hno _ Hin).
    + rewrite Hplen. symmetry. exact (Forall2_length_eq _ _ _ (Hsh eq_refl)).
Qed.
(* ================================================================== *)
(** * Rounding: how far a double is from the number it stands for *)
(* ================================================================== *)

Section Rounding.

Local Open Scope Z_scope.



























End Rounding.

(* ================================================================== *)
(** * Progress *)
(* ================================================================== *)



(** The progress notifications of a run are those of the first tables, in
    table order; all of them when the run returns. *)
Lemma run_progress env self conn :
  sqlite3_connect env (db_file self) = Ok conn ->
  let total := List.length (exported_names conn) in
  exists n,
    (n <= total)%nat /\
    map Ok (progress_events (trace (snd (run env self))))
      = map (fun j => progress_arg j total) (seq 0 n) /\
    (fst (run env self) = Ok tt -> n = total).
Proof.
  intros Hconn total.
  destruct (run_cases env self conn Hconn)
    as (r1 & evs & done & sfx & Hl & Ht & Hcases).
  destruct (loop_run_facts _ _ _ _ _ _ _ Hl)
    as (Hp & Hg & Hlen & Hok & Hstop & Haft & Hev).
  exists (List.length done). fold total in Hg.
  assert (Hpe : progress_events (evs ++ sfx) = progress_events evs).
  { rewrite progress_events_app.
    destruct Hcases as [(_ & -> & _) | [(_ & -> & _) | (e & _ & -> & _)]];
      cbn; now rewrite app_nil_r. }
  rewrite Ht, Hpe. split; [exact Hlen |]. split; [exact Hg |].
  intros Hr.
  destruct Hcases
    as [(-> & _) | [(_ & _ & (e' & Hf & Hne) & _) | (e & _ & _ & Hf & _)]];
    try congruence.
  unfold total. now rewrite Hok.
Qed.


(** The notifications of a run that returns: one progress notification per
    table, in table order; then the finalizing one, the close and done. *)
Lemma run_notifications (env : Env) (self : Converter) (conn : Connection) :
  sqlite3_connect env (db_file self) = Ok conn ->
  fst (run env self) = Ok tt ->
  let total := List.length (exported_names conn) in
  let tr := trace (snd (run env self)) in
  map Ok (progress_events tr)
    = map (fun i => progress_arg i total) (seq 0 total) /\
  (exists pre,
     tr = (pre ++ [EvWait; EvClose; EvDone])%list /\
     ~ In EvWait pre /\ ~ In EvClose pre /\ ~ In EvDone pre) /\
  wb_closed (book (snd (run env self))) = true /\
  can_create env (save_path self) = true.
Proof.
  intros Hconn Hok total tr. subst tr.
  destruct (run_progress env self conn Hconn) as (n & Hn & Hmap & Hall).
  fold total in Hn, Hmap, Hall. rewrite (Hall Hok) in Hmap.
  split; [exact Hmap |].
  destruct (run_cases env self conn Hconn)
    as (r1 & evs & done & sfx & Hl & Ht & Hcases).
  destruct Hcases
    as [(_ & -> & _ & Hc & Hcan & _) | [(_ & _ & (e' & Hf & Hne) & _)
                                       | (e & _ & _ & Hf & _)]];
    try congruence.
  destruct (loop_run_facts _ _ _ _ _ _ _ Hl) as (_ & _ & _ & _ & _ & _ & Hev).
  assert (Hno : forall ev, In ev evs -> loop_event ev)
    by (now apply Forall_forall).
  split; [| split; assumption].
  exists evs. split; [exact Ht |].
  repeat split; intros Hin; exact (Hno _ Hin).
Qed.



(** X23: in a run that returns, over any number of tables, there is exactly
    one progress notification per table, in table order, none skipped and
    none repeated.  The notifications end with the finalizing one and done;
    done is the last event of the run and follows the close of the workbook,
    which has succeeded; nothing before the finalizing notification is a
    close or a done. *)
Theorem notifications_in_order (env : Env) (self : Converter)
    (conn : Connection) :
  sqlite3_connect env (db_file self) = Ok conn ->
  fst (run env self) = Ok tt ->
  let total := List.length (exported_names conn) in
  let tr := trace (snd (run env self)) in
  map Ok (progress_events tr)
    = map (fun i => progress_arg i total) (seq 0 total) /\
  (exists pre,
     tr = (pre ++ [EvWait; EvClose; EvDone])%list /\
     ~ In EvWait pre /\ ~ In EvClose pre /\ ~ In EvDone pre) /\
  wb_closed (book (snd (run env self))) = true /\
  can_create env (save_path self) = true.
Proof.
  intros Hconn Hok. exact (run_notifications env self conn Hconn Hok).
Qed.

(* ================================================================== *)
(** * One sheet per table *)
(* ================================================================== *)




(* ================================================================== *)
(** * Further properties: the destination path *)
(* ================================================================== *)

Lemma string_length_append (a b : string) :
  String.length (a ++ b) = (String.length a + String.length b)%nat.
Proof. induction a as [| c a IH]; cbn; [reflexivity | now rewrite IH]. Qed.

Lemma substring_suffix (a b : string) :
  substring (String.length a) (String.length b) (a ++ b) = b.
Proof. induction a as [| c a IH]; cbn; [apply substring_all | exact IH]. Qed.

Lemma append_same_suffix (s : string) : forall a b, a ++ s = b ++ s -> a = b.
Proof.
  induction a as [| c a IH]; intros [| d b] H; cbn in H.
  - reflexivity.
  - exfalso. apply (f_equal String.length) in H. cbn in H.
    rewrite string_length_append in H. lia.
  - exfalso. apply (f_equal String.length) in H. cbn in H.
    rewrite string_length_append in H. lia.
  - injection H as -> H. f_equal. now apply IH.
Qed.

(** X1: whatever the source path, [set_save_path] succeeds and the
    destination it derives ends in [.xlsx], is five characters longer than
    the source path and is never the source path itself: the export cannot
    overwrite the database it reads. *)
Theorem save_path_is_never_the_source (file_path : string) :
  exists save_path,
    set_save_path file_path = Ok save_path /\
    save_path <> file_path /\
    endswith ".xlsx" save_path = true /\
    String.length save_path = (String.length file_path + 5)%nat.
Proof.
  exists (file_path ++ ".xlsx").
  split; [reflexivity |].
  assert (L : String.length (file_path ++ ".xlsx")
              = (String.length file_path + 5)%nat)
    by (now rewrite string_length_append).
  split; [| split; [| exact L]].
  - intros E. apply (f_equal String.length) in E. rewrite L in E. lia.
  - unfold endswith. rewrite L.
    replace (String.length file_path + 5 - String.length ".xlsx")%nat
      with (String.length file_path) by (cbn; lia).
    rewrite (substring_suffix file_path ".xlsx").
    apply andb_true_iff. split; [apply Nat.leb_le; cbn; lia | reflexivity].
Qed.

(** X2: two different source paths never get the same destination. *)
Theorem save_paths_differ (p q : string) :
  p <> q -> set_save_path p <> set_save_path q.
Proof.
  intros Hne E. rewrite !set_save_path_appends in E.
  injection E as E. apply Hne. exact (append_same_suffix _ _ _ E).
Qed.

Lemma save_paths_differ_witness :
  "a.db" <> "b.db" /\ set_save_path "a.db" <> set_save_path "b.db".
Proof.
  assert (H : "a.db" <> "b.db") by discriminate.
  split; [exact H | exact (save_paths_differ "a.db" "b.db" H)].
Defined.

(* ================================================================== *)
(** * Further properties: reading a table *)
(* ================================================================== *)

Lemma string_append_assoc (a b c : string) : (a ++ b) ++ c = a ++ (b ++ c).
Proof. induction a as [| x a IH]; cbn; [reflexivity | now rewrite IH]. Qed.

(** The token ends at the first quote that is not doubled. *)
Lemma lex_quoted_first_quote (a rest : string) :
  no_quote a = true ->
  match rest with
  | String c _ => c <> "'"%char
  | EmptyString => True
  end ->
  lex_quoted (a ++ String "'"%char rest) = Some (a, rest).
Proof.
  intros Ha Hrest. induction a as [| x a IH].
  - cbn. destruct rest as [| c rest]; [reflexivity |].
    apply Ascii.eqb_neq in Hrest. now rewrite Hrest.
  - cbn in Ha. apply andb_true_iff in Ha as [Hx Ha].
    apply negb_true_iff in Hx. cbn [append lex_quoted]. rewrite Hx.
    now rewrite (IH Ha).
Qed.

(** A token whose closing quote is doubled by the quote that ends the
    statement is never closed. *)
Lemma lex_quoted_doubled_end (a : string) :
  no_quote a = true -> lex_quoted (a ++ "''") = None.
Proof.
  intros Ha. induction a as [| x a IH].
  - reflexivity.
  - cbn in Ha. apply andb_true_iff in Ha as [Hx Ha].
    apply negb_true_iff in Hx. cbn [append lex_quoted]. rewrite Hx.
    now rewrite (IH Ha).
Qed.

Lemma parse_select_query_body (name : string) :
  parse_select_all (select_query name)
  = match lex_quoted (name ++ "'") with
    | None => Raise syntax_error
    | Some (n, EmptyString) => Ok (Some n)
    | Some (_, rest) =>
        if opens_unclosed rest then Raise syntax_error else Ok None
    end.
Proof.
  unfold parse_select_all, select_query. cbn -[lex_quoted].
  replace (String.prefix EmptyString (name ++ "'")) with true
    by (destruct (name ++ "'"); reflexivity).
  now rewrite Nat.sub_0_r, substring_all.
Qed.

Lemma plain_char_not_quote (c : ascii) :
  plain_char c = true -> Ascii.eqb c "'"%char = false.
Proof.
  intros H. apply Ascii.eqb_neq. intros ->. discriminate H.
Qed.

Lemma plain_opens_unclosed (b : string) :
  plain b = true -> opens_unclosed (b ++ "'") = true.
Proof.
  induction b as [| c b IH]; cbn; [reflexivity |].
  intros H. apply andb_true_iff in H as [Hc Hb].
  now rewrite (plain_char_not_quote c Hc), Hc, (IH Hb).
Qed.

(** X3: a table name with a single quote that is followed by plain words
    only (letters, digits, underscores, spaces), as [it's] or [rock 'n roll],
    makes [select_table] raise a syntax error whatever the database holds:
    the quote of the name closes the token, and the quote that ends the
    statement opens one that is never closed.  The workbook is not
    touched. *)
Theorem quote_in_name_is_a_syntax_error (conn : Connection)
    (a b : string) (w : World) :
  no_quote a = true ->
  plain b = true ->
  select_table conn (a ++ String "'"%char b) w
  = (Raise syntax_error,
     {| book := book w;
        trace := (trace w
                  ++ [EvExecute (select_query (a ++ String "'"%char b))])%list |}).
Proof.
  intros Ha Hb. unfold select_table, bind, emit, lift, execute.
  cbn [book trace]. rewrite parse_select_query_body.
  rewrite string_append_assoc. cbn [append].
  destruct b as [| c b].
  - cbn [append]. rewrite (lex_quoted_doubled_end a Ha). reflexivity.
  - assert (Hc : c <> "'"%char).
    { cbn in Hb. apply andb_true_iff in Hb as [Hc _].
      apply Ascii.eqb_neq. now apply plain_char_not_quote. }
    rewrite (lex_quoted_first_quote a (String c b ++ "'") Ha Hc).
    cbn [append]. change (String c (b ++ "'")) with (String c b ++ "'").
    rewrite (plain_opens_unclosed _ Hb). reflexivity.
Qed.

Lemma find_object_some conn name o :
  find_object conn name = Some o ->
  In o conn /\
  (obj_type o = "table" \/ obj_type o = "view") /\
  lower (obj_name o) = lower name.
Proof.
  unfold find_object. intros H. apply find_some in H as [Hin Hb].
  apply andb_true_iff in Hb as [Hrel Hname].
  split; [exact Hin |]. split.
  - unfold is_relation in Hrel. apply orb_true_iff in Hrel as [K | K];
      apply String.eqb_eq in K; auto.
  - now apply String.eqb_eq.
Qed.

(** X5: for a name without a single quote that stands for a table or a
    view of the catalog (names are compared without regard to the case of
    ASCII letters), [select_table] returns the column names of that table or
    view, as text cells, followed by all its rows in stored order; what it
    returns is never empty, and the workbook is left as it was. *)
Theorem select_table_returns_header_and_rows (conn : Connection)
    (name : string) (o : DbObject) (w : World) :
  no_quote name = true ->
  find_object conn name = Some o ->
  In o conn /\
  (obj_type o = "table" \/ obj_type o = "view") /\
  lower (obj_name o) = lower name /\
  select_table conn name w
  = (Ok (map VText (obj_columns o) :: obj_rows o),
     {| book := book w;
        trace := (trace w ++ [EvExecute (select_query name)])%list |}).
Proof.
  intros Hq Hfind.
  destruct (find_object_some conn name o Hfind) as (Hin & Hty & Hname).
  repeat split; try assumption.
  now apply select_table_spec.
Qed.

(* ================================================================== *)
(** * Further properties: writing a table *)
(* ================================================================== *)

Lemma map_firstn_aligned width (rows : list (list value)) :
  Forall (fun row => List.length row = width) rows ->
  map (firstn width) rows = rows.
Proof.
  induction 1 as [| row rows Hrow _ IH]; cbn; [reflexivity |].
  rewrite IH. f_equal. subst width. apply firstn_all.
Qed.

(** X22: let a name without a single quote stand for a table or view of
    the catalog whose rows are as long as its column list and hold values
    that [write] accepts, and let the workbook accept the name.  Then
    [select_table] and [write_table_to_workbook] return and add one sheet,
    which has received, in row-major order, one call for each column name (on
    row 0, in source column order) and one for each cell of each data row
    (row [k + 1] for data row [k], in source column order), and no other
    call. *)
Theorem exported_sheet_matches_table (conn : Connection) (name given : string)
    (o : DbObject) (w : World) :
  let width := List.length (obj_columns o) in
  no_quote name = true ->
  find_object conn name = Some o ->
  Forall (fun row => List.length row = width) (obj_rows o) ->
  Forall (fun row => forallb writable row = true) (obj_rows o) ->
  check_sheetname (wb_sheets (book w)) (S (wb_sheetname_count (book w))) name
    = Ok given ->
  exists table w1 w2 ws,
    select_table conn name w = (Ok table, w1) /\
    write_table_to_workbook table name w1 = (Ok tt, w2) /\
    wb_sheets (book w2) = (wb_sheets (book w) ++ [ws])%list /\
    ws_name ws = given /\
    ws_cells ws = row_major 0 (map VText (obj_columns o) :: obj_rows o).
Proof.
  intros width Hq Hfind Hal _ Hname.
  set (header := map VText (obj_columns o)).
  assert (Hw : List.length header = width)
    by (unfold header; now rewrite length_map).
  pose proof (select_table_spec conn name o w Hq Hfind) as Hsel.
  set (w1 := {| book := book w;
                trace := (trace w ++ [EvExecute (select_query name)])%list |})
    in Hsel.
  pose proof (write_table_result header (obj_rows o) [] name given w1) as Hwr.
  cbn zeta in Hwr. rewrite Hw in Hwr.
  specialize (Hwr Hname).
  rewrite !app_nil_r, (map_firstn_aligned _ _ Hal) in Hwr.
  fold header in Hsel.
  eexists (header :: obj_rows o), w1, _,
    {| ws_name := given; ws_cells := row_major 0 (header :: obj_rows o) |}.
  split; [exact Hsel |].
  split.
  { apply Hwr; [| exact I].
    eapply Forall_impl; [| exact Hal]. cbn. intros row ->. apply Nat.le_refl. }
  repeat split; reflexivity.
Qed.

(** X6: whatever table and name it is given, and whether it returns or
    raises, [write_table_to_workbook] leaves the sheets already in the
    workbook as they were and adds at most one sheet after them; it asks for
    a sheet exactly once, does not close the workbook and does not change
    the file it is bound to. *)
Theorem write_table_keeps_other_sheets (table : list (list value))
    (name : string) (w : World) :
  let w' := snd (write_table_to_workbook table name w) in
  (exists news,
     wb_sheets (book w') = (wb_sheets (book w) ++ news)%list /\
     (List.length news <= 1)%nat) /\
  trace w' = (trace w ++ [EvAddWorksheet name])%list /\
  wb_closed (book w') = wb_closed (book w) /\
  wb_filename (book w') = wb_filename (book w) /\
  wb_sheetname_count (book w') = S (wb_sheetname_count (book w)).
Proof.
  cbn zeta.
  destruct table as [| header data].
  - rewrite write_table_empty.
    destruct (check_sheetname _ _ name) as [given | e]; cbn.
    + repeat split. eexists. split; [reflexivity | cbn; lia].
    + repeat split. exists []. split; [now rewrite app_nil_r | cbn; lia].
  - rewrite write_table_spec.
    destruct (check_sheetname _ _ name) as [given | e]; cbn [snd].
    + rewrite add_cells_created by reflexivity. cbn.
      repeat split. eexists. split; [reflexivity | cbn; lia].
    + cbn. repeat split. exists []. split; [now rewrite app_nil_r | cbn; lia].
Qed.

Lemma nth_error_map_option {A B} (f : A -> B) (l : list A) (n : nat) :
  nth_error (map f l) n = option_map f (nth_error l n).
Proof.
  revert n. induction l as [| a l IH]; intros [| n]; cbn; try reflexivity.
  apply IH.
Qed.

Lemma nth_error_firstn_cut {A} (l : list A) : forall (width c : nat),
  nth_error (firstn width l) c
  = if (c <? width)%nat then nth_error l c else None.
Proof.
  induction l as [| a l IH]; intros width c.
  - rewrite firstn_nil. destruct c; now destruct (_ <? _)%nat.
  - destruct width as [| width]; [now destruct c |].
    destruct c as [| c]; [reflexivity |].
    cbn [firstn nth_error]. rewrite IH. reflexivity.
Qed.

Lemma In_cells_from (row : list value) : forall r k r' c v,
  In (r', c, v) (cells_from r k row) <->
  r' = r /\ (k <= c)%nat /\ nth_error row (c - k) = Some v.
Proof.
  induction row as [| v0 rest IH]; intros r k r' c v; cbn [cells_from].
  - split; [intros [] |]. intros (_ & _ & H). now destruct (c - k)%nat.
  - cbn [In]. rewrite IH. split.
    + intros [E | (-> & Hk & Hn)].
      * injection E as <- <- <-. rewrite Nat.sub_diag. repeat split. lia.
      * repeat split; [lia |].
        replace (c - k)%nat with (S (c - S k)) by lia. exact Hn.
    + intros (-> & Hk & Hn).
      destruct (Nat.eq_dec c k) as [-> | Hne].
      * left. rewrite Nat.sub_diag in Hn. cbn in Hn. now injection Hn as ->.
      * right. repeat split; [lia |].
        replace (c - k)%nat with (S (c - S k)) in Hn by lia. exact Hn.
Qed.

Lemma In_row_major (rows : list (list value)) : forall r0 r c v,
  In (r, c, v) (row_major r0 rows) <->
  (r0 <= r)%nat /\
  exists row, nth_error rows (r - r0) = Some row /\ nth_error row c = Some v.
Proof.
  induction rows as [| row0 rest IH]; intros r0 r c v; cbn [row_major].
  - split; [intros [] |]. intros (_ & row & H & _). now destruct (r - r0)%nat.
  - rewrite in_app_iff, In_cells_from, IH. split.
    + intros [(-> & _ & Hn) | (Hr & row & Hrow & Hn)].
      * split; [lia |]. exists row0. rewrite Nat.sub_diag, Nat.sub_0_r in *.
        split; [reflexivity | exact Hn].
      * split; [lia |]. exists row.
        replace (r - r0)%nat with (S (r - S r0)) by lia. split; assumption.
    + intros (Hr & row & Hrow & Hn).
      destruct (Nat.eq_dec r r0) as [-> | Hne].
      * left. rewrite Nat.sub_diag in Hrow. cbn in Hrow.
        injection Hrow as ->. rewrite Nat.sub_0_r. repeat split. lia.
        exact Hn.
      * right. split; [lia |]. exists row.
        replace (r - r0)%nat with (S (r - S r0)) in Hrow by lia.
        split; assumption.
Qed.

(** X7: after a table whose data rows are all at least as wide as the
    header, and whose values [write] accepts, has been written under an
    accepted name, the calls the new sheet has received are these: for every
    row [r] of the table and every column [c] below the header's width, one
    call that writes cell [c] of row [r] at row [r] and column [c]; there is
    no call beyond the header's width and none below the last row. *)
Theorem written_sheet_cells (header : list value) (data : list (list value))
    (name given : string) (w : World) :
  let width := List.length header in
  check_sheetname (wb_sheets (book w)) (S (wb_sheetname_count (book w))) name
    = Ok given ->
  Forall (fun row => (width <= List.length row)%nat) data ->
  Forall (fun row => forallb writable row = true) (header :: data) ->
  exists ws,
    wb_sheets (book (snd (write_table_to_workbook (header :: data) name w)))
      = (wb_sheets (book w) ++ [ws])%list /\
    ws_name ws = given /\
    forall r c v,
      In (r, c, v) (ws_cells ws) <->
      (c < width)%nat /\
      exists row,
        nth_error (header :: data) r = Some row /\ nth_error row c = Some v.
Proof.
  intros width Hname Hwide _.
  pose proof (write_table_result header data [] name given w Hname) as Hwr.
  cbn zeta in Hwr. fold width in Hwr. specialize (Hwr Hwide I).
  rewrite !app_nil_r in Hwr. rewrite Hwr. cbn [snd book wb_sheets].
  eexists. split; [reflexivity |]. split; [reflexivity |].
  cbn [ws_cells]. intros r c v.
  replace (header :: map (firstn width) data)
    with (map (firstn width) (header :: data))
    by (cbn [map]; f_equal; apply firstn_all).
  rewrite In_row_major, Nat.sub_0_r. split.
  - intros (_ & row' & Hrow' & Hc).
    rewrite nth_error_map_option in Hrow'.
    destruct (nth_error (header :: data) r) as [row |]; [| discriminate].
    cbn in Hrow'. injection Hrow' as <-.
    rewrite nth_error_firstn_cut in Hc.
    destruct (Nat.ltb_spec c width); [| discriminate].
    split; [assumption |]. exists row. split; [reflexivity | exact Hc].
  - intros (Hc & row & Hrow & Hv).
    split; [lia |]. exists (firstn width row).
    rewrite nth_error_map_option, Hrow. split; [reflexivity |].
    rewrite nth_error_firstn_cut.
    destruct (Nat.ltb_spec c width); [exact Hv | lia].
Qed.

(** X21: a table with no row at all, not even a header, makes
    [write_table_to_workbook] raise [IndexError], but only after the sheet
    has been asked for: under an accepted name the workbook is left with a
    new, empty sheet. *)
Theorem write_table_without_header (name given : string) (w : World) :
  check_sheetname (wb_sheets (book w)) (S (wb_sheetname_count (book w))) name
    = Ok given ->
  fst (write_table_to_workbook [] name w) = Raise IndexError /\
  wb_sheets (book (snd (write_table_to_workbook [] name w)))
    = (wb_sheets (book w) ++ [{| ws_name := given; ws_cells := [] |}])%list.
Proof.
  intros H. rewrite write_table_empty, H. split; reflexivity.
Qed.

(** X8: when the driver cannot open the database, nothing is exported:
    the workbook has no sheet and is not closed, the thread emits no
    notification (it only prints the driver's message), and it ends with
    [AttributeError] for a [sqlite3.Error] and with the driver's exception
    otherwise. *)
Theorem run_fails_without_connection (env : Env) (self : Converter)
    (e : exn) :
  sqlite3_connect env (db_file self) = Raise e ->
  fst (run env self)
    = Raise (match e with Sqlite3Error _ => AttributeError | _ => e end) /\
  wb_sheets (book (snd (run env self))) = [] /\
  wb_closed (book (snd (run env self))) = false /\
  forall ev, In ev (trace (snd (run env self))) -> exists msg, ev = EvPrint msg.
Proof.
  intros H. unfold run, run_body, bind, set_book, create_connection.
  cbn [book trace]. rewrite H.
  assert (Hnone : forall ev : event, In ev [] -> exists msg, ev = EvPrint msg)
    by (intros ? []).
  destruct e; cbn; (split; [reflexivity |]);
    (split; [reflexivity |]); (split; [reflexivity |]); try exact Hnone.
  intros ? [<- | []]. eexists. reflexivity.
Qed.
(* ================================================================== *)
(** * Further properties: the run as a whole *)
(* ================================================================== *)

(** X9: when the catalog leaves nothing to export, the destination can be
    created and the default sheet can be written out, the run reads no flag
    and no table: it emits the finalizing notification, closes the workbook,
    which gets the one sheet [Sheet1] that closing gives a workbook without
    sheets, and emits done, whatever the cancellation flag holds. *)
Theorem run_with_nothing_to_export (env : Env) (self : Converter)
    (conn : Connection) :
  sqlite3_connect env (db_file self) = Ok conn ->
  exported_names conn = [] ->
  can_create env (save_path self) = true ->
  pack env [{| ws_name := "Sheet1"; ws_cells := [] |}] = None ->
  run env self
  = (Ok tt,
     {| book := {| wb_filename := save_path self;
                   wb_sheets := [{| ws_name := "Sheet1"; ws_cells := [] |}];
                   wb_sheetname_count := 1;
                   wb_closed := true |};
        trace := [EvWait; EvClose; EvDone] |}).
Proof.
  intros Hconn Hnone Hcan Hpack.
  rewrite (run_connected env self conn Hconn), Hnone. cbn.
  rewrite Hcan.
  change (pack env [default_sheet 1])
    with (pack env [{| ws_name := "Sheet1"; ws_cells := [] |}]).
  now rewrite Hpack.
Qed.

Lemma loop_events_not_final evs :
  Forall loop_event evs ->
  ~ In EvWait evs /\ ~ In EvClose evs /\ ~ In EvDone evs.
Proof.
  intros H. rewrite Forall_forall in H.
  repeat split; intros Hin; exact (H _ Hin).
Qed.

(** X10: once the database is open, the done notification is emitted
    exactly when the run returns, and so are the close of the workbook and
    the closed state of the workbook object: a run that raises, cancelled or
    failed, never reports done and never closes the workbook. *)
Theorem done_exactly_on_return (env : Env) (self : Converter)
    (conn : Connection) :
  sqlite3_connect env (db_file self) = Ok conn ->
  (In EvDone (trace (snd (run env self))) <-> fst (run env self) = Ok tt) /\
  (In EvClose (trace (snd (run env self))) <-> fst (run env self) = Ok tt) /\
  (wb_closed (book (snd (run env self))) = true
   <-> fst (run env self) = Ok tt).
Proof.
  intros Hconn.
  destruct (run_cases env self conn Hconn)
    as (r1 & evs & done & sfx & Hl & Ht & Hcases).
  destruct (loop_run_facts _ _ _ _ _ _ _ Hl) as (_ & _ & _ & _ & _ & _ & Hev).
  destruct (loop_events_not_final evs Hev) as (Hw & Hc & Hd).
  rewrite Ht.
  destruct Hcases
    as [(_ & -> & Hf & Hcl & _) | [(_ & -> & (e' & Hf & Hne) & Hcl & _)
                                  | (e & _ & -> & Hf & Hcl & _)]];
    rewrite Hf, Hcl.
  - repeat split; trivial; intros _; apply in_or_app; right; cbn; auto.
  - repeat split; try discriminate;
      intros K; apply in_app_or in K as [K | K]; try contradiction;
      cbn in K; intuition discriminate.
  - rewrite app_nil_r.
    repeat split; try discriminate; intros K; contradiction.
Qed.

(** X11: when the destination cannot be created, a run that got through
    all its tables has announced the finalizing step as its last
    notification and then fails with [FileCreateError]: one sheet per
    exported table is held by a workbook that is not closed. *)
Theorem close_failure_after_all_tables (env : Env) (self : Converter)
    (conn : Connection) :
  sqlite3_connect env (db_file self) = Ok conn ->
  fst (run env self) = Raise FileCreateError ->
  can_create env (save_path self) = false /\
  (exists pre,
     trace (snd (run env self)) = (pre ++ [EvWait])%list /\
     Forall loop_event pre) /\
  Forall2 sheet_for (exported_names conn)
    (wb_sheets (book (snd (run env self)))) /\
  wb_closed (book (snd (run env self))) = false.
Proof.
  intros Hconn Hf.
  destruct (run_cases env self conn Hconn)
    as (r1 & evs & done & sfx & Hl & Ht & Hcases).
  destruct (loop_run_facts _ _ _ _ _ _ _ Hl)
    as (_ & _ & _ & Hdone & _ & _ & Hev).
  destruct Hcases
    as [(_ & _ & Hf' & _)
       | [(Hr1 & -> & _ & Hcl & [(_ & Hcan & Hsh) | (f & Hf' & _)])
         | (e & _ & _ & Hf' & _ & _ & Herr)]].
  - congruence.
  - rewrite (Hdone Hr1) in Hsh.
    split; [exact Hcan |]. split; [| split; assumption].
    exists evs. split; [exact Ht | exact Hev].
  - rewrite Hf in Hf'. destruct f; discriminate Hf'.
  - rewrite Hf in Hf'. injection Hf' as <-. destruct Herr.
Qed.

(** X13: the tables a run exports are exactly the names of the catalog
    entries of type [table] that do not start with [sqlite]: views, indexes
    and triggers are never exported, nor is any table whose name starts with
    [sqlite], the engine's own tables among them. *)
Theorem exported_names_spec (conn : Connection) (name : string) :
  In name (exported_names conn) <->
  exists o,
    In o conn /\ obj_type o = "table" /\ obj_name o = name /\
    startswith "sqlite" name = false.
Proof.
  unfold exported_names, clean_names, execute_table_names.
  rewrite filter_In, <- flat_map_concat_map, in_flat_map.
  split.
  - intros [(o & Ho & Hn) Hs].
    apply filter_In in Ho as [Ho Ht]. destruct Hn as [<- | []].
    exists o. repeat split; trivial.
    + now apply String.eqb_eq.
    + now apply negb_true_iff.
  - intros (o & Ho & Ht & <- & Hs). split.
    + exists o. split; [| now left].
      apply filter_In. split; [exact Ho | now apply String.eqb_eq].
    + now apply negb_true_iff.
Qed.

Lemma added_sheets_app evs sfx :
  added_sheets (evs ++ sfx) = (added_sheets evs ++ added_sheets sfx)%list.
Proof.
  induction evs as [| e evs IH]; [reflexivity |].
  destruct e; cbn; now rewrite IH.
Qed.

Lemma executed_app evs sfx :
  executed (evs ++ sfx) = (executed evs ++ executed sfx)%list.
Proof.
  induction evs as [| e evs IH]; [reflexivity |].
  destruct e; cbn; now rewrite IH.
Qed.

Lemma loop_run_order env total i names r evs done :
  loop_run env total i names r evs done ->
  exists ka ke,
    added_sheets evs = firstn ka names /\
    executed evs = map select_query (firstn ke names) /\
    (ka <= ke <= S ka)%nat.
Proof.
  induction 1 as [i | i name rest x r evs done Hx Hs _ IH
                  | i name rest x Hx Hs | i name rest e He | i name rest e He].
  - exists 0%nat, 0%nat. repeat split; lia.
  - destruct IH as (ka & ke & Ha & He & Hk).
    exists (S ka), (S ke). unfold iteration. cbn. rewrite Ha, He.
    repeat split; lia.
  - exists 1%nat, 1%nat. repeat split; lia.
  - exists 0%nat, 1%nat. repeat split; lia.
  - exists 1%nat, 1%nat. repeat split; lia.
Qed.

(** X14: once the database is open, tables are read and written in
    catalog order, each at most once: the sheets asked for are the first
    names of the export list, the statements executed are those of the first
    names, and a sheet is asked for only after its table was read. *)
Theorem tables_in_catalog_order (env : Env) (self : Converter)
    (conn : Connection) :
  sqlite3_connect env (db_file self) = Ok conn ->
  exists ka ke,
    added_sheets (trace (snd (run env self)))
      = firstn ka (exported_names conn) /\
    executed (trace (snd (run env self)))
      = map select_query (firstn ke (exported_names conn)) /\
    (ka <= ke <= S ka)%nat.
Proof.
  intros Hconn.
  destruct (run_cases env self conn Hconn)
    as (r1 & evs & done & sfx & Hl & Ht & Hcases).
  destruct (loop_run_order _ _ _ _ _ _ _ Hl) as (ka & ke & Ha & He & Hk).
  exists ka, ke. rewrite Ht, added_sheets_app, executed_app, Ha, He.
  destruct Hcases as [(_ & -> & _) | [(_ & -> & _) | (e & _ & -> & _)]];
    cbn; rewrite !app_nil_r; repeat split; lia.
Qed.

Lemma loop_run_flag env total i names r evs done :
  loop_run env total i names r evs done ->
  (r = Ok tt ->
   forall j, (j < List.length names)%nat -> stopped_at env (i + j) = false) /\
  (r = Raise SystemExit ->
   exists k,
     (k < List.length names)%nat /\
     done = firstn (S k) names /\
     stopped_at env (i + k) = true /\
     forall j, (j < k)%nat -> stopped_at env (i + j) = false).
Proof.
  induction 1 as [i | i name rest x r evs done Hx Hs _ IH
                  | i name rest x Hx Hs | i name rest e He | i name rest e He].
  - split; [intros _ j Hj; cbn in Hj; lia | discriminate].
  - destruct IH as [IHok IHexit]. split.
    + intros Hr [| j] Hj; [now rewrite Nat.add_0_r |].
      rewrite Nat.add_succ_r. apply (IHok Hr j). cbn in Hj. lia.
    + intros Hr. destruct (IHexit Hr) as (k & Hk & Hd & Hset & Hbefore).
      exists (S k). repeat split.
      * cbn. lia.
      * cbn [firstn]. now rewrite Hd.
      * now rewrite Nat.add_succ_r.
      * intros [| j] Hj; [now rewrite Nat.add_0_r |].
        rewrite Nat.add_succ_r. apply Hbefore. lia.
  - split; [discriminate |]. intros _. exists 0%nat. repeat split.
    + cbn. lia.
    + now rewrite Nat.add_0_r.
    + intros j Hj. lia.
  - split; [discriminate |]. intros K. inversion K. congruence.
  - split; [discriminate |]. intros K. inversion K. congruence.
Qed.

(** X15: a run that ends by cancellation has exported the tables up to
    and including the first one after which the flag was read as set, and
    no other: the workbook holds one sheet for each of them, in order. *)
Theorem cancelled_run_stops_at_first_set_flag (env : Env) (self : Converter)
    (conn : Connection) :
  sqlite3_connect env (db_file self) = Ok conn ->
  fst (run env self) = Raise SystemExit ->
  exists k,
    (k < List.length (exported_names conn))%nat /\
    stopped_at env k = true /\
    (forall j, (j < k)%nat -> stopped_at env j = false) /\
    Forall2 sheet_for (firstn (S k) (exported_names conn))
      (wb_sheets (book (snd (run env self)))).
Proof.
  intros Hconn Hexit.
  destruct (run_cases env self conn Hconn)
    as (r1 & evs & done & sfx & Hl & Ht & Hcases).
  destruct (loop_run_flag _ _ _ _ _ _ _ Hl) as [_ Hflag].
  destruct Hcases
    as [(_ & _ & Hf & _) | [(_ & _ & (e' & Hf & Hne) & _)
                           | (e & Hr & _ & Hf & _ & Hsh & _)]];
    try congruence.
  assert (e = SystemExit) by congruence. subst e.
  destruct (Hflag Hr) as (k & Hk & Hd & Hset & Hbefore).
  exists k. rewrite <- Hd. repeat split; trivial. now apply Hsh.
Qed.

(** X16: a run that returns has read the flag as unset after every one of
    its tables: a flag seen set at any of these reads keeps the run from
    finishing. *)
Theorem returned_run_saw_no_flag (env : Env) (self : Converter)
    (conn : Connection) :
  sqlite3_connect env (db_file self) = Ok conn ->
  fst (run env self) = Ok tt ->
  forall j, (j < List.length (exported_names conn))%nat ->
            stopped_at env j = false.
Proof.
  intros Hconn Hok.
  destruct (run_cases env self conn Hconn)
    as (r1 & evs & done & sfx & Hl & Ht & Hcases).
  destruct (loop_run_flag _ _ _ _ _ _ _ Hl) as [Hflag _].
  destruct Hcases
    as [(Hr & _) | [(_ & _ & (e' & Hf & Hne) & _) | (e & _ & _ & Hf & _)]];
    try congruence.
  exact (Hflag Hr).
Qed.

(* ================================================================== *)
(** * Further properties: what the window shows *)
(* ================================================================== *)

Lemma shown_app tr1 tr2 w :
  ConverterWindow.shown (tr1 ++ tr2) w
  = ConverterWindow.shown tr2 (ConverterWindow.shown tr1 w).
Proof. unfold ConverterWindow.shown. apply fold_left_app. Qed.

(** The events of the loop move the bar at most: they log nothing. *)
Lemma shown_loop_logs evs : forall w,
  Forall loop_event evs ->
  ConverterWindow.win_logs (ConverterWindow.shown evs w)
  = ConverterWindow.win_logs w.
Proof.
  induction evs as [| e evs IH]; intros w H; [reflexivity |].
  inversion H as [| ? ? He Hevs]; subst.
  unfold ConverterWindow.shown in *. cbn [fold_left]. rewrite (IH _ Hevs).
  destruct e; cbn in He; try contradiction; cbn; try reflexivity.
  now destruct (int_of_float x).
Qed.

(** X17: when the signals of a run that returns are delivered in order,
    the window ends with the bar at 100 and, after what it showed before,
    exactly two more log lines: the saving notice and [Done!]. *)
Theorem window_after_a_completed_run (env : Env) (self : Converter)
    (conn : Connection) (w : ConverterWindow.Window) :
  sqlite3_connect env (db_file self) = Ok conn ->
  fst (run env self) = Ok tt ->
  ConverterWindow.shown (trace (snd (run env self))) w
  = {| ConverterWindow.win_prog := 100%Z;
       ConverterWindow.win_logs :=
         (ConverterWindow.win_logs w
          ++ ["Saving excel file, please wait..."; "Done!"])%list |}.
Proof.
  intros Hconn Hok.
  destruct (run_cases env self conn Hconn)
    as (r1 & evs & done & sfx & Hl & Ht & Hcases).
  destruct (loop_run_facts _ _ _ _ _ _ _ Hl) as (_ & _ & _ & _ & _ & _ & Hev).
  destruct Hcases
    as [(_ & -> & _) | [(_ & _ & (e' & Hf & Hne) & _) | (e & _ & _ & Hf & _)]];
    try congruence.
  rewrite Ht, shown_app. unfold ConverterWindow.shown at 1. cbn.
  unfold ConverterWindow.done, ConverterWindow.wait. cbn.
  rewrite (shown_loop_logs evs w Hev), <- app_assoc. reflexivity.
Qed.

(** X18: when a run raises, the window never logs [Done!]: its log is
    left as it was, or has gained the saving notice alone.  It has gained
    the notice when the failure is that of creating the destination, and is
    left as it was when the run was cancelled. *)
Theorem window_after_a_failed_run (env : Env) (self : Converter)
    (conn : Connection) (w : ConverterWindow.Window) (e : exn) :
  sqlite3_connect env (db_file self) = Ok conn ->
  fst (run env self) = Raise e ->
  let logs :=
    ConverterWindow.win_logs
      (ConverterWindow.shown (trace (snd (run env self))) w) in
  let notice := "Saving excel file, please wait..." in
  (logs = ConverterWindow.win_logs w \/
   logs = (ConverterWindow.win_logs w ++ [notice])%list) /\
  (e = FileCreateError ->
   logs = (ConverterWindow.win_logs w ++ [notice])%list) /\
  (e = SystemExit -> logs = ConverterWindow.win_logs w).
Proof.
  intros Hconn Hf logs notice. subst logs notice.
  destruct (run_cases env self conn Hconn)
    as (r1 & evs & done & sfx & Hl & Ht & Hcases).
  destruct (loop_run_facts _ _ _ _ _ _ _ Hl) as (_ & _ & _ & _ & _ & _ & Hev).
  rewrite Ht, shown_app.
  destruct Hcases
    as [(_ & _ & Hf' & _) | [(_ & -> & (e' & Hf' & Hne) & _)
                            | (e1 & _ & -> & Hf' & _ & _ & Herr)]].
  - congruence.
  - assert (e' = e) by congruence. subst e'.
    unfold ConverterWindow.shown at 1. cbn.
    rewrite (shown_loop_logs evs w Hev).
    split; [now right |]. split; [reflexivity |]. intros ->. now destruct Hne.
  - assert (e1 = e) by congruence. subst e1.
    unfold ConverterWindow.shown at 1. cbn.
    rewrite (shown_loop_logs evs w Hev).
    split; [now left |]. split; [| reflexivity].
    intros ->. destruct Herr.
Qed.

(** X19: the constructor starts a conversion only for a file that was
    chosen: then the converter reads that file and writes to its path with
    [.xlsx] appended, the bar is at 0 and one line naming both paths has been
    logged.  When the dialog was dismissed nothing is started: the process
    exits if the [Close] button of the error box was clicked, and otherwise
    [set_save_path] fails with [AttributeError] on the path left unset. *)
Theorem init_starts_only_with_a_file (chosen : string) (close_clicked : bool)
    (w : ConverterWindow.Window) :
  match ConverterWindow.init chosen close_clicked w with
  | Ok (w', conv) =>
      chosen <> EmptyString /\
      db_file conv = chosen /\
      save_path conv = chosen ++ ".xlsx" /\
      ConverterWindow.win_prog w' = 0%Z /\
      ConverterWindow.win_logs w'
      = (ConverterWindow.win_logs w
         ++ [ConverterWindow.selection_message chosen (chosen ++ ".xlsx")])%list
  | Raise e =>
      chosen = EmptyString /\
      e = (if close_clicked then SystemExit else AttributeError)
  end.
Proof.
  unfold ConverterWindow.init, ConverterWindow.set_file_path,
    ConverterWindow.show_error, ConverterWindow.save_path_of.
  destruct (String.eqb_spec chosen EmptyString) as [-> | Hne]; cbn [negb].
  - destruct close_clicked; cbn; split; reflexivity.
  - rewrite set_save_path_appends. cbn. repeat split. exact Hne.
Qed.

End Converter.

(* ================================================================== *)
(** * Sample runs *)
(* ================================================================== *)

(** The sample databases bear ASCII names, on which [str.lower] is [lower],
    and the statements run on them are decided by their text and their
    catalog, so that the engine is never asked: the samples are run with a
    [str.lower] that folds the ASCII letters and an engine that knows no
    object besides those of the catalog. *)
#[local] Instance sample_libraries : Libraries :=
  {| str_lower := lower;
     sqlite_other := fun _ _ => inr "no such table" |}.

(** C4, as stated, fails: with no table to export the flag is never read.
    A run whose flag is set from the start still emits the finalizing
    notification, closes the workbook and emits done. *)
Lemma flag_set_without_tables_finalizes :
  fst (run (sample_env [] always_stopped) sample_job) = Ok tt /\
  trace (snd (run (sample_env [] always_stopped) sample_job))
    = [EvWait; EvClose; EvDone] /\
  wb_closed (book (snd (run (sample_env [] always_stopped) sample_job)))
    = true.
Proof. repeat split; reflexivity. Qed.

Lemma flag_is_read_between_tables_witness :
  sqlite3_connect (sample_env sample_db always_stopped) (db_file sample_job)
    = Ok sample_db /\
  after_stop (trace (snd (run (sample_env sample_db always_stopped)
                              sample_job))) = [] /\
  (In (EvStopped true)
      (trace (snd (run (sample_env sample_db always_stopped) sample_job)))
   <-> fst (run (sample_env sample_db always_stopped) sample_job)
       = Raise SystemExit).
Proof.
  split; [reflexivity |].
  pose proof (flag_is_read_between_tables
                (sample_env sample_db always_stopped) sample_job sample_db
                eq_refl) as H.
  cbn zeta in H. destruct H as (_ & _ & _ & Hafter & Hiff & _).
  split; [exact Hafter | exact Hiff].
Defined.

(** C9, as stated, fails: a table name of 36 characters is neither cut
    nor corrected in silence; the workbook refuses it, the error reaches the
    caller and no sheet is created. *)
Lemma long_sheet_name_is_refused :
  str_len long_name = 36%nat /\
  fst (write_table_to_workbook [[VText "id"]] long_name empty_world)
    = Raise InvalidWorksheetName /\
  wb_sheets (book (snd (write_table_to_workbook [[VText "id"]] long_name
                          empty_world))) = [].
Proof. repeat split; reflexivity. Qed.



Lemma write_table_without_header_witness :
  fst (write_table_to_workbook [] "t" empty_world) = Raise IndexError /\
  wb_sheets (book (snd (write_table_to_workbook [] "t" empty_world)))
    = [{| ws_name := "t"; ws_cells := [] |}].
Proof.
  exact (write_table_without_header "t" "t" empty_world eq_refl).
Defined.

Lemma run_fails_without_connection_witness :
  sqlite3_connect failing_driver (db_file sample_job)
    = Raise (Sqlite3Error "unable to open database file") /\
  fst (run failing_driver sample_job) = Raise AttributeError /\
  wb_sheets (book (snd (run failing_driver sample_job))) = [].
Proof.
  split; [reflexivity |].
  destruct (run_fails_without_connection failing_driver sample_job _ eq_refl)
    as (H1 & H2 & _).
  split; assumption.
Defined.

Lemma done_exactly_on_return_witness :
  sqlite3_connect (sample_env sample_db always_stopped) (db_file sample_job)
    = Ok sample_db /\
  (In EvDone (trace (snd (run (sample_env sample_db always_stopped)
                              sample_job)))
   <-> fst (run (sample_env sample_db always_stopped) sample_job) = Ok tt).
Proof.
  split; [reflexivity |].
  exact (proj1 (done_exactly_on_return
                  (sample_env sample_db always_stopped) sample_job sample_db
                  eq_refl)).
Defined.

Lemma close_failure_after_all_tables_witness :
  sqlite3_connect (unwritable_env sample_db) (db_file sample_job)
    = Ok sample_db /\
  fst (run (unwritable_env sample_db) sample_job) = Raise FileCreateError /\
  wb_closed (book (snd (run (unwritable_env sample_db) sample_job))) = false.
Proof.
  assert (Hf : fst (run (unwritable_env sample_db) sample_job)
               = Raise FileCreateError) by (vm_compute; reflexivity).
  split; [reflexivity |]. split; [exact Hf |].
  destruct (close_failure_after_all_tables (unwritable_env sample_db)
              sample_job sample_db eq_refl Hf) as (_ & _ & _ & H).
  exact H.
Defined.

Lemma tables_in_catalog_order_witness :
  sqlite3_connect (sample_env sample_db never_stopped) (db_file sample_job)
    = Ok sample_db /\
  exists ka ke,
    added_sheets (trace (snd (run (sample_env sample_db never_stopped)
                                  sample_job)))
      = firstn ka (exported_names sample_db) /\
    executed (trace (snd (run (sample_env sample_db never_stopped)
                              sample_job)))
      = map select_query (firstn ke (exported_names sample_db)) /\
    (ka <= ke <= S ka)%nat.
Proof.
  split; [reflexivity |].
  exact (tables_in_catalog_order (sample_env sample_db never_stopped)
           sample_job sample_db eq_refl).
Defined.

Lemma cancelled_run_stops_at_first_set_flag_witness :
  sqlite3_connect (sample_env sample_db always_stopped) (db_file sample_job)
    = Ok sample_db /\
  fst (run (sample_env sample_db always_stopped) sample_job)
    = Raise SystemExit /\
  exists k,
    (k < List.length (exported_names sample_db))%nat /\
    stopped_at (sample_env sample_db always_stopped) k = true /\
    (forall j, (j < k)%nat ->
               stopped_at (sample_env sample_db always_stopped) j = false) /\
    Forall2 sheet_for (firstn (S k) (exported_names sample_db))
      (wb_sheets (book (snd (run (sample_env sample_db always_stopped)
                                 sample_job)))).
Proof.
  assert (Hexit : fst (run (sample_env sample_db always_stopped) sample_job)
                  = Raise SystemExit) by (vm_compute; reflexivity).
  split; [reflexivity |]. split; [exact Hexit |].
  exact (cancelled_run_stops_at_first_set_flag
           (sample_env sample_db always_stopped) sample_job sample_db
           eq_refl Hexit).
Defined.

Lemma returned_run_saw_no_flag_witness :
  sqlite3_connect (sample_env sample_db never_stopped) (db_file sample_job)
    = Ok sample_db /\
  fst (run (sample_env sample_db never_stopped) sample_job) = Ok tt /\
  stopped_at (sample_env sample_db never_stopped) 1 = false.
Proof.
  assert (Hok : fst (run (sample_env sample_db never_stopped) sample_job)
                = Ok tt) by (vm_compute; reflexivity).
  split; [reflexivity |]. split; [exact Hok |].
  apply (returned_run_saw_no_flag (sample_env sample_db never_stopped)
           sample_job sample_db eq_refl Hok 1%nat).
  cbn. lia.
Defined.

Lemma window_after_a_completed_run_witness :
  sqlite3_connect (sample_env sample_db never_stopped) (db_file sample_job)
    = Ok sample_db /\
  fst (run (sample_env sample_db never_stopped) sample_job) = Ok tt /\
  ConverterWindow.shown
    (trace (snd (run (sample_env sample_db never_stopped) sample_job)))
    start_window
  = {| ConverterWindow.win_prog := 100%Z;
       ConverterWindow.win_logs :=
         ["Saving excel file, please wait..."; "Done!"] |}.
Proof.
  assert (Hok : fst (run (sample_env sample_db never_stopped) sample_job)
                = Ok tt) by (vm_compute; reflexivity).
  split; [reflexivity |]. split; [exact Hok |].
  exact (window_after_a_completed_run (sample_env sample_db never_stopped)
           sample_job sample_db start_window eq_refl Hok).
Defined.




Lemma notifications_in_order_witness :
  sqlite3_connect (sample_env sample_db never_stopped) (db_file sample_job)
    = Ok sample_db /\
  fst (run (sample_env sample_db never_stopped) sample_job) = Ok tt /\
  exists pre,
    trace (snd (run (sample_env sample_db never_stopped) sample_job))
      = (pre ++ [EvWait; EvClose; EvDone])%list /\
    ~ In EvWait pre /\ ~ In EvClose pre /\ ~ In EvDone pre.
Proof.
  assert (Hok : fst (run (sample_env sample_db never_stopped) sample_job)
                = Ok tt) by (vm_compute; reflexivity).
  split; [reflexivity |]. split; [exact Hok |].
  destruct (notifications_in_order (sample_env sample_db never_stopped)
              sample_job sample_db eq_refl Hok) as (_ & Hpre & _).
  exact Hpre.
Defined.



Lemma quote_in_name_is_a_syntax_error_witness :
  no_quote "it" = true /\
  plain "s" = true /\
  fst (select_table quoted_db "it's" empty_world) = Raise syntax_error.
Proof.
  split; [reflexivity |]. split; [reflexivity |].
  exact (f_equal fst
           (quote_in_name_is_a_syntax_error quoted_db "it" "s" empty_world
              eq_refl eq_refl)).
Defined.

Lemma select_table_returns_header_and_rows_witness :
  no_quote "Logs" = true /\
  find_object sample_db "Logs" = Some logs /\
  fst (select_table sample_db "Logs" empty_world)
    = Ok [[VText "id"; VText "msg"]; [VInt 1; VText "ok"]].
Proof.
  split; [reflexivity |]. split; [reflexivity |].
  destruct (select_table_returns_header_and_rows sample_db "Logs" logs
              empty_world eq_refl eq_refl) as (_ & _ & _ & H).
  exact (f_equal fst H).
Defined.

Lemma exported_sheet_matches_table_witness :
  no_quote "users" = true /\
  find_object sample_db "users" = Some users /\
  exists table w1 w2 ws,
    select_table sample_db "users" empty_world = (Ok table, w1) /\
    write_table_to_workbook table "users" w1 = (Ok tt, w2) /\
    wb_sheets (book w2) = [ws] /\
    ws_name ws = "users" /\
    ws_cells ws
    = [(0, 0, VText "id"); (0, 1, VText "name");
       (1, 0, VInt 1); (1, 1, VText "Ann");
       (2, 0, VInt 2); (2, 1, VText "Bo")]%nat.
Proof.
  split; [reflexivity |]. split; [reflexivity |].
  destruct (exported_sheet_matches_table sample_db "users" "users" users
              empty_world eq_refl eq_refl)
    as (table & w1 & w2 & ws & Hsel & Hwr & Hsheets & Hname & Hcells).
  - repeat constructor.
  - repeat constructor.
  - reflexivity.
  - exists table, w1, w2, ws.
    split; [exact Hsel |]. split; [exact Hwr |]. split; [exact Hsheets |].
    split; [exact Hname | exact Hcells].
Defined.

Lemma written_sheet_cells_witness :
  exists ws,
    wb_sheets
      (book (snd (write_table_to_workbook
                    [[VText "a"; VText "b"]; [VInt 1; VInt 2; VInt 3]]
                    "t" empty_world)))
      = [ws] /\
    In (1, 1, VInt 2)%nat (ws_cells ws) /\
    ~ In (1, 2, VInt 3)%nat (ws_cells ws).
Proof.
  destruct (written_sheet_cells [VText "a"; VText "b"]
              [[VInt 1; VInt 2; VInt 3]] "t" "t" empty_world eq_refl)
    as (ws & Hsheets & _ & Hcells).
  - repeat constructor.
  - repeat constructor.
  - exists ws. split; [exact Hsheets |]. split.
    + apply Hcells. split; [cbn; lia |].
      exists [VInt 1; VInt 2; VInt 3]. split; reflexivity.
    + intros Hin. apply Hcells in Hin. destruct Hin as [Hlt _].
      cbn in Hlt. lia.
Defined.

Lemma run_with_nothing_to_export_witness :
  sqlite3_connect (sample_env engine_only_db always_stopped) (db_file sample_job)
    = Ok engine_only_db /\
  exported_names engine_only_db = [] /\
  run (sample_env engine_only_db always_stopped) sample_job
  = (Ok tt,
     {| book := {| wb_filename := "data.db.xlsx";
                   wb_sheets := [{| ws_name := "Sheet1"; ws_cells := [] |}];
                   wb_sheetname_count := 1;
                   wb_closed := true |};
        trace := [EvWait; EvClose; EvDone] |}).
Proof.
  split; [reflexivity |]. split; [reflexivity |].
  exact (run_with_nothing_to_export
           (sample_env engine_only_db always_stopped) sample_job engine_only_db
           eq_refl eq_refl eq_refl eq_refl).
Defined.

Lemma window_after_a_failed_run_witness :
  sqlite3_connect (sample_env sample_db always_stopped) (db_file sample_job)
    = Ok sample_db /\
  fst (run (sample_env sample_db always_stopped) sample_job)
    = Raise SystemExit /\
  ConverterWindow.win_logs
    (ConverterWindow.shown
       (trace (snd (run (sample_env sample_db always_stopped) sample_job)))
       start_window) = [].
Proof.
  assert (Hexit : fst (run (sample_env sample_db always_stopped) sample_job)
                  = Raise SystemExit) by (vm_compute; reflexivity).
  split; [reflexivity |]. split; [exact Hexit |].
  destruct (window_after_a_failed_run (sample_env sample_db always_stopped)
              sample_job sample_db start_window SystemExit eq_refl Hexit)
    as (_ & _ & H).
  exact (H eq_refl).
Defined.
